(** * EZ-Robotics Python backend: plugin runtime and transport gateway

    A shallow embedding of [src/python-backend/plugin_manager.py] and
    [src/python-backend/server.py], and the properties of the design
    document checked against it.

    Conventions of the embedding.

    - Python objects that are shared and mutated ([PluginInstance]s,
      producer [asyncio.Task]s with the queue they fill, background
      [handle_stream] tasks) live in stores of the host state and are
      referred to by identity, so that aliasing is preserved.
    - A Python exception deriving from [Exception] is represented by its
      [str(e)]; [asyncio.CancelledError] and [asyncio.TimeoutError] are
      handled where the source handles them.
    - Time is virtual and discrete.  A plugin coroutine waits at its
      suspension points ([await]), each annotated with its duration.
      Synchronous plugin code runs on the thread of the event loop: while
      a generator blocks (for instance in [time.sleep]) no other task runs
      and no timer of the loop fires, so its duration is recorded in the
      generator and is not seen by the loop.  The host's own processing is
      instantaneous.
    - The event loop is cooperative: each transition below is the code that
      runs between two suspension points of one task. *)

From Stdlib Require Import ZArith.
From stdpp Require Import base strings gmap list.

Open Scope string_scope.
Open Scope list_scope.

(** ** Python values and plugin entry points *)

Inductive outcome (A : Type) : Type :=
| Ok (a : A)
| Exc (e : string).
Arguments Ok {A} a.
Arguments Exc {A} e.

(** The values plugin code hands to the host.  A generator object is given
    by what iterating it does; [GBlock d] is synchronous code between two
    yields that keeps the thread for [d] time units. *)
#[warnings="-register-all"] Inductive value : Type :=
| VNone
| VBool (b : bool)
| VInt (n : Z)
| VStr (s : string)
| VList (xs : list value)
| VDict (kvs : list (string * value))
| VGenerator (g : generator)
| VAsyncGenerator (g : async_generator)
| VCoroutine
with generator : Type :=
| GReturn
| GYield (v : value) (k : generator)
| GRaise (e : string)
| GBlock (d : nat) (k : generator)
with async_generator : Type :=
| AReturn
| AYield (v : value) (k : async_generator)
| AAwait (d : nat) (k : async_generator)
| ARaise (e : string).

Abbreviation kwargs := (list (string * value)) (only parsing).

(** [data is None] *)
Definition is_None (v : value) : bool :=
  match v with VNone => true | _ => false end.

Definition type_name (v : value) : string :=
  match v with
  | VNone => "NoneType" | VBool _ => "bool" | VInt _ => "int"
  | VStr _ => "str" | VList _ => "list" | VDict _ => "dict"
  | VGenerator _ => "generator"
  | VAsyncGenerator _ => "async_generator" | VCoroutine => "coroutine"
  end.

(** The first value [json.dumps] rejects, for the message of its
    [TypeError]. *)
Fixpoint json_culprit (v : value) : option value :=
  match v with
  | VNone | VBool _ | VInt _ | VStr _ => None
  | VList xs =>
      (fix first (l : list value) : option value :=
         match l with
         | [] => None
         | x :: l' => match json_culprit x with
                      | Some c => Some c
                      | None => first l'
                      end
         end) xs
  | VDict kvs =>
      (fix first (l : list (string * value)) : option value :=
         match l with
         | [] => None
         | (_, x) :: l' => match json_culprit x with
                           | Some c => Some c
                           | None => first l'
                           end
         end) kvs
  | VGenerator _ | VAsyncGenerator _ | VCoroutine => Some v
  end.

(** What [json.dumps] accepts among the values above. *)
Definition json_serializable (v : value) : bool :=
  match json_culprit v with None => true | Some _ => false end.

Definition json_TypeError (v : value) : string :=
  "Object of type " +:+ type_name v +:+ " is not JSON serializable".

(** An [async def] without [yield]: awaiting it suspends for [co_delay]
    time units and then returns or raises. *)
Record coroutine := { co_delay : nat; co_result : outcome value }.

(** The four kinds of function told apart by [inspect] and [asyncio]:
    the outer [outcome] is the call itself (argument binding), which for
    the last three runs none of the body. *)
Inductive body : Type :=
| PlainFunction (f : list value → kwargs → outcome value)
| GeneratorFunction (f : list value → kwargs → outcome generator)
| CoroutineFunction (f : list value → kwargs → outcome coroutine)
| AsyncGeneratorFunction (f : list value → kwargs → outcome async_generator).

Record pyfunc := { f_name : string; f_body : body }.

Definition isasyncgenfunction (f : pyfunc) : bool :=
  match f_body f with AsyncGeneratorFunction _ => true | _ => false end.
Definition isgeneratorfunction (f : pyfunc) : bool :=
  match f_body f with GeneratorFunction _ => true | _ => false end.
Definition iscoroutinefunction (f : pyfunc) : bool :=
  match f_body f with CoroutineFunction _ => true | _ => false end.

(** The call [func(args, kwargs)] evaluated as a plain call. *)
Definition call (f : pyfunc) (args : list value) (kw : kwargs) : outcome value :=
  match f_body f with
  | PlainFunction b => b args kw
  | GeneratorFunction b =>
      match b args kw with Ok g => Ok (VGenerator g) | Exc e => Exc e end
  | CoroutineFunction b =>
      match b args kw with Ok _ => Ok VCoroutine | Exc e => Exc e end
  | AsyncGeneratorFunction b =>
      match b args kw with Ok g => Ok (VAsyncGenerator g) | Exc e => Exc e end
  end.

(** A loaded module: its function attributes by name. *)
Abbreviation pymodule := (gmap string pyfunc) (only parsing).

(** A code text, given by what executing it as a module does. *)
Record code_unit := { exec_module : outcome (gmap string pyfunc) }.

(** ** The producer task and its queue *)

(** A host coroutine between its suspension points: [CPut v] is
    [await queue.put(v)] on the unbounded queue, which never suspends;
    [CAwait d] is an [await] of plugin code that takes [d] time units. *)
Inductive coro : Type :=
| CReturn
| CPut (v : value) (k : coro)
| CAwait (d : nat) (k : coro)
| CRaise (e : string).

(** [for data in xs: await queue.put(data)].  The loop over a generator
    has no suspension point, the queue being unbounded: the task keeps the
    thread through the blocking of the generator. *)
Fixpoint put_each (xs : list value) : coro :=
  match xs with
  | [] => CReturn
  | x :: xs' => CPut x (put_each xs')
  end.

Fixpoint put_each_generator (g : generator) : coro :=
  match g with
  | GReturn => CReturn
  | GYield v g' => CPut v (put_each_generator g')
  | GRaise e => CRaise e
  | GBlock _ g' => put_each_generator g'
  end.

(** [async for data in g: await queue.put(data)] *)
Fixpoint put_each_async (g : async_generator) : coro :=
  match g with
  | AReturn => CReturn
  | AYield v g' => CPut v (put_each_async g')
  | AAwait d g' => CAwait d (put_each_async g')
  | ARaise e => CRaise e
  end.

Fixpoint characters (s : string) : list value :=
  match s with
  | EmptyString => []
  | String c s' => VStr (String c EmptyString) :: characters s'
  end.

(** [hasattr(result, '__aiter__')] *)
Definition has_aiter (v : value) : bool :=
  match v with VAsyncGenerator _ => true | _ => false end.

(** [hasattr(result, '__iter__')] *)
Definition has_iter (v : value) : bool :=
  match v with
  | VList _ | VStr _ | VDict _ | VGenerator _ => true
  | _ => false
  end.

(** The loop over a result that has [__aiter__] or [__iter__]. *)
Definition put_each_value (v : value) : coro :=
  match v with
  | VAsyncGenerator g => put_each_async g
  | VGenerator g => put_each_generator g
  | VList xs => put_each xs
  | VStr s => put_each (characters s)
  | VDict kvs => put_each (VStr <$> kvs.*1)
  | _ => CReturn
  end.

(** [try: c finally: await queue.put(None)], the [except] clause of the
    source logging and re-raising. *)
Fixpoint finally_put_None (c : coro) : coro :=
  match c with
  | CReturn => CPut VNone CReturn
  | CPut v k => CPut v (finally_put_None k)
  | CAwait d k => CAwait d (finally_put_None k)
  | CRaise e => CPut VNone (CRaise e)
  end.

(** [PluginInstance._run_streaming_function] *)
Definition _run_streaming_function (func : pyfunc)
    (args : list value) (kw : kwargs) : coro :=
  finally_put_None
    match f_body func with
    | AsyncGeneratorFunction b =>
        match b args kw with
        | Ok g => put_each_async g
        | Exc e => CRaise e
        end
    | GeneratorFunction b =>
        match b args kw with
        | Ok g => put_each_generator g
        | Exc e => CRaise e
        end
    | CoroutineFunction b =>
        match b args kw with
        | Exc e => CRaise e
        | Ok co =>
            CAwait (co_delay co)
              match co_result co with
              | Exc e => CRaise e
              | Ok result =>
                  if has_aiter result then put_each_value result
                  else if has_iter result then put_each_value result
                  else CRaise ("Async function " +:+ f_name func +:+
                               " did not return a generator")
              end
        end
    | PlainFunction b =>
        match b args kw with
        | Exc e => CRaise e
        | Ok result =>
            if has_iter result then put_each_value result
            else CRaise ("Function " +:+ f_name func +:+
                         " did not return a generator")
        end
    end.

Inductive task_state : Type :=
| Suspended (d : nat) (k : coro)
| Finished
| Failed (e : string)
| Cancelled.

(** An [asyncio.Task] running [_run_streaming_function], with the
    [asyncio.Queue] it shares with its consumer. *)
Record Task := { t_state : task_state; t_queue : list value }.

(** Runs the coroutine up to its next suspension point. *)
Fixpoint drive (c : coro) (q : list value) : Task :=
  match c with
  | CReturn => {| t_state := Finished; t_queue := q |}
  | CPut v k => drive k (q ++ [v])
  | CAwait d k => {| t_state := Suspended d k; t_queue := q |}
  | CRaise e => {| t_state := Failed e; t_queue := q |}
  end.

(** [task.done()] *)
Definition task_done (t : Task) : bool :=
  match t_state t with Suspended _ _ => false | _ => true end.

Inductive awaited : Type :=
| Returned
| Raised (e : string)
| CancelledError.

(** [task.cancel()] followed by [await task]: a suspended producer gets
    [CancelledError] at its [await], which its [except Exception] lets
    through and its [finally] answers by the end marker; [cancel] does
    nothing to a task that is done, and awaiting that gives its result. *)
Definition cancel_and_await (t : Task) : Task * awaited :=
  match t_state t with
  | Suspended _ _ =>
      ({| t_state := Cancelled; t_queue := t_queue t ++ [VNone] |},
       CancelledError)
  | Finished => (t, Returned)
  | Failed e => (t, Raised e)
  | Cancelled => (t, CancelledError)
  end.

(** The [timeout=10.0] of the consumer's pull. *)
Definition STREAM_TIMEOUT : nat := 10.

Inductive pulled : Type :=
| Got (v : value)
| TimeoutError.

(** The consumer waits on an empty queue while the producer goes on from
    [c]; [waited] is the time this pull has waited so far. *)
Fixpoint wait_for_put (c : coro) (waited : nat) : pulled * Task :=
  match c with
  | CReturn => (TimeoutError, {| t_state := Finished; t_queue := [] |})
  | CRaise e => (TimeoutError, {| t_state := Failed e; t_queue := [] |})
  | CPut v k => (Got v, drive k [])
  | CAwait d k =>
      if decide (STREAM_TIMEOUT ≤ waited + d)%nat
      then (TimeoutError, {| t_state := Suspended d k; t_queue := [] |})
      else wait_for_put k (waited + d)
  end.

(** [await asyncio.wait_for(queue.get(), timeout=10.0)] *)
Definition queue_get (t : Task) : pulled * Task :=
  match t_queue t with
  | v :: q => (Got v, {| t_state := t_state t; t_queue := q |})
  | [] =>
      match t_state t with
      | Suspended d k => wait_for_put (CAwait d k) 0
      | _ => (TimeoutError, t)
      end
  end.

(** ** Insertion-ordered dictionaries

    [PluginInstance.streams] is iterated by [stop], so the order of a
    Python [dict] is kept. *)

Section dict.
Context {V : Type}.

Fixpoint dict_get (k : string) (d : list (string * V)) : option V :=
  match d with
  | [] => None
  | (k', v) :: d' => if decide (k' = k) then Some v else dict_get k d'
  end.

(** [d[k] = v]: an existing key keeps its place. *)
Fixpoint dict_set (k : string) (v : V) (d : list (string * V))
    : list (string * V) :=
  match d with
  | [] => [(k, v)]
  | (k', v') :: d' =>
      if decide (k' = k) then (k, v) :: d' else (k', v') :: dict_set k v d'
  end.

(** [d.pop(k, None)], the dictionary that is left. *)
Fixpoint dict_remove (k : string) (d : list (string * V))
    : list (string * V) :=
  match d with
  | [] => []
  | (k', v') :: d' =>
      if decide (k' = k) then d' else (k', v') :: dict_remove k d'
  end.

Definition dict_values (d : list (string * V)) : list V := d.*2.
End dict.

(** ** The host state *)

Record plugin_instance := {
  plugin_id : string;
  module : option (gmap string pyfunc);
  streams : list (string * nat);
}.

(** The JSON objects the host writes to a connection. *)
Inductive wire : Type :=
| load_response (id : value) (success : bool) (error : option string)
| execute_response (id : value) (result : value) (error : option string)
| stream_start_response (id : value) (streamId : string) (success : bool)
| stream_stop_response (id : value) (streamId : string) (success : bool)
| unload_response (id : value) (success : bool)
| error_response (id : value) (error : string)
| stream_data (streamId : string) (data : value)
| stream_error (streamId : string) (error : string).

(** A background [handle_stream] task: created by [asyncio.create_task]
    and not yet run, suspended inside the relay loop of
    [PluginInstance.stream_function] (with the objects its frame holds),
    or over. *)
Inductive handler : Type :=
| Created (plugin_id stream_id function : string)
          (args : list value) (kw : kwargs)
| Relaying (plugin_id stream_id : string) (websocket self task : nat)
| Completed.

Record State := {
  plugins : gmap string nat;          (* plugin_manager.plugins *)
  heap : gmap nat plugin_instance;    (* the PluginInstance objects *)
  tasks : gmap nat Task;              (* producer tasks of the event loop *)
  handlers : gmap nat handler;        (* handle_stream tasks *)
  connections : gmap string nat;      (* server.connections *)
  sent : list (nat * wire);           (* every send_json, oldest first *)
  disk : gmap string code_unit;       (* plugins/<id>/main.py *)
  pool : list (nat * string);         (* calls handed to the worker pool *)
}.

Definition initial : State :=
  {| plugins := ∅; heap := ∅; tasks := ∅; handlers := ∅; connections := ∅;
     sent := []; disk := ∅; pool := [] |}.

Definition set_plugins (x : gmap string nat) (σ : State) : State :=
  {| plugins := x; heap := heap σ; tasks := tasks σ; handlers := handlers σ;
     connections := connections σ; sent := sent σ; disk := disk σ;
     pool := pool σ |}.
Definition set_heap (x : gmap nat plugin_instance) (σ : State) : State :=
  {| plugins := plugins σ; heap := x; tasks := tasks σ; handlers := handlers σ;
     connections := connections σ; sent := sent σ; disk := disk σ;
     pool := pool σ |}.
Definition set_tasks (x : gmap nat Task) (σ : State) : State :=
  {| plugins := plugins σ; heap := heap σ; tasks := x; handlers := handlers σ;
     connections := connections σ; sent := sent σ; disk := disk σ;
     pool := pool σ |}.
Definition set_handlers (x : gmap nat handler) (σ : State) : State :=
  {| plugins := plugins σ; heap := heap σ; tasks := tasks σ; handlers := x;
     connections := connections σ; sent := sent σ; disk := disk σ;
     pool := pool σ |}.
Definition set_connections (x : gmap string nat) (σ : State) : State :=
  {| plugins := plugins σ; heap := heap σ; tasks := tasks σ;
     handlers := handlers σ; connections := x; sent := sent σ; disk := disk σ;
     pool := pool σ |}.
Definition set_sent (x : list (nat * wire)) (σ : State) : State :=
  {| plugins := plugins σ; heap := heap σ; tasks := tasks σ;
     handlers := handlers σ; connections := connections σ; sent := x;
     disk := disk σ; pool := pool σ |}.
Definition set_disk (x : gmap string code_unit) (σ : State) : State :=
  {| plugins := plugins σ; heap := heap σ; tasks := tasks σ;
     handlers := handlers σ; connections := connections σ; sent := sent σ;
     disk := x; pool := pool σ |}.
Definition set_pool (x : list (nat * string)) (σ : State) : State :=
  {| plugins := plugins σ; heap := heap σ; tasks := tasks σ;
     handlers := handlers σ; connections := connections σ; sent := sent σ;
     disk := disk σ; pool := x |}.

(** ** Host code: state and exceptions *)

Definition M (A : Type) : Type := State → outcome A * State.

#[export] Instance M_ret : MRet M := λ A a σ, (Ok a, σ).
#[export] Instance M_bind : MBind M := λ A B f m σ,
  match m σ with
  | (Ok a, σ') => f a σ'
  | (Exc e, σ') => (Exc e, σ')
  end.

(** [raise Exception(e)] *)
Definition raise {A} (e : string) : M A := λ σ, (Exc e, σ).

(** [try: m except Exception as e: h e] *)
Definition try_except {A} (m : M A) (h : string → M A) : M A := λ σ,
  match m σ with
  | (Ok a, σ') => (Ok a, σ')
  | (Exc e, σ') => h e σ'
  end.

Definition gets {A} (f : State → A) : M A := λ σ, (Ok (f σ), σ).
Definition modify (f : State → State) : M unit := λ σ, (Ok (), f σ).

Definition outcome_result {A} (o : outcome A) : M A := λ σ, (o, σ).

(** *** Objects in the stores

    References are never dangling in a state the host reaches; reading
    one that is gives the fields of an object just constructed. *)

(** [PluginInstance(plugin_id, plugin_dir, None)] *)
Definition new_instance (plugin_id : string) : plugin_instance :=
  {| plugin_id := plugin_id; module := None; streams := [] |}.

Definition set_module (m : option (gmap string pyfunc))
    (p : plugin_instance) : plugin_instance :=
  {| plugin_id := plugin_id p; module := m; streams := streams p |}.

Definition set_streams (d : list (string * nat))
    (p : plugin_instance) : plugin_instance :=
  {| plugin_id := plugin_id p; module := module p; streams := d |}.

Definition instance_at (σ : State) (self : nat) : plugin_instance :=
  default (new_instance "") (heap σ !! self).

Definition task_at (σ : State) (task : nat) : Task :=
  default {| t_state := Finished; t_queue := [] |} (tasks σ !! task).

Definition deref (self : nat) : M plugin_instance :=
  gets (λ σ, instance_at σ self).

Definition update (self : nat) (f : plugin_instance → plugin_instance)
    : M unit :=
  modify (λ σ, set_heap (alter f self (heap σ)) σ).

Definition get_task (task : nat) : M Task :=
  gets (λ σ, task_at σ task).

Definition put_task (task : nat) (t : Task) : M unit :=
  modify (λ σ, set_tasks (<[task := t]> (tasks σ)) σ).

(** [asyncio.create_task(c)]: the new task runs to its first suspension
    point as soon as its creator suspends, which every creator below does
    right away. *)
Definition create_task (c : coro) : M nat := λ σ,
  let task := fresh (dom (tasks σ)) in
  (Ok task, set_tasks (<[task := drive c []]> (tasks σ)) σ).

(** [task.cancel()], then [try: await task] with
    [except asyncio.CancelledError: pass].  Awaiting a task that is done
    returns or raises at once.  Awaiting a pending task suspends the
    caller until the task has taken the cancellation, and other tasks of
    the loop run meanwhile: [cancel] gives the state at which the caller
    goes on, had none of them run. *)
Definition cancel (task : nat) : M unit :=
  t ← get_task task;
  put_task task (cancel_and_await t).1;;
  match (cancel_and_await t).2 with
  | Raised e => raise e
  | Returned | CancelledError => mret ()
  end.

(** ** [class PluginInstance] *)

Module PluginInstance.

Definition _run_in_executor (self : nat) (func : pyfunc)
    (args : list value) (kw : kwargs) : M value :=
  modify (λ σ, set_pool (pool σ ++ [(self, f_name func)]) σ);;
  outcome_result (call func args kw).

(** The module object is kept by the instance only when its code has
    run; an instance whose [load] raises is dropped by its caller.
    [exec_module c] is what executing the text [c] gives.  The loader of
    [importlib] executes bytecode cached under [__pycache__] in place of
    the text when the cache records the size and the whole-second
    modification time that [main.py] has: [load] follows the source
    where no such cache is there, as on an id that had no [main.py]. *)
Definition load (self : nat) : M unit :=
  p ← deref self;
  code ← gets (λ σ, disk σ !! plugin_id p);
  match code with
  | None => raise ("No such file or directory: plugins/" +:+
                   plugin_id p +:+ "/main.py")
  | Some c =>
      m ← outcome_result (exec_module c);
      update self (set_module (Some m));;
      match m !! "initialize" with
      | Some initialize => _run_in_executor self initialize [] [];; mret ()
      | None => mret ()
      end
  end.

Definition execute_function (self : nat) (function_name : string)
    (args : list value) (kw : kwargs) : M value :=
  p ← deref self;
  match module p ≫= (.!! function_name) with
  | None => raise ("Function " +:+ function_name +:+ " not found in plugin")
  | Some func =>
      match f_body func with
      | CoroutineFunction b =>
          co ← outcome_result (b args kw);
          outcome_result (co_result co)
      | _ => _run_in_executor self func args kw
      end
  end.

(** The [finally] clause of [stream_function]. *)
Definition stream_function_finally (self : nat) (stream_id : string)
    (task : nat) : M unit :=
  t ← get_task task;
  (if task_done t then mret () else cancel task);;
  update self (λ p, set_streams (dict_remove stream_id (streams p)) p).

(** [stream_function] up to its loop: the task id is what the frame of
    the generator holds from then on. *)
Definition stream_function_start (self : nat) (stream_id : string)
    (function_name : string) (args : list value) (kw : kwargs) : M nat :=
  p ← deref self;
  match module p ≫= (.!! function_name) with
  | None => raise ("Function " +:+ function_name +:+ " not found in plugin")
  | Some func =>
      task ← create_task (_run_streaming_function func args kw);
      update self (λ p, set_streams (dict_set stream_id task (streams p)) p);;
      mret task
  end.

(** One turn of the loop of [stream_function]: [Some data] is
    [yield data]; [None] is the generator returning, its [finally]
    clause run. *)
Definition stream_function_next (self : nat) (stream_id : string)
    (task : nat) : M (option value) :=
  t ← get_task task;
  put_task task (queue_get t).2;;
  match (queue_get t).1 with
  | TimeoutError =>
      stream_function_finally self stream_id task;; mret None
  | Got data =>
      if is_None data
      then stream_function_finally self stream_id task;; mret None
      else mret (Some data)
  end.

(** [stop_stream]: the entry is popped before the task is cancelled and
    awaited; see [cancel] for the suspension at a pending task, during
    which the relay of the stream may write. *)
Definition stop_stream (self : nat) (stream_id : string) : M unit :=
  p ← deref self;
  update self (λ p, set_streams (dict_remove stream_id (streams p)) p);;
  match dict_get stream_id (streams p) with
  | Some task => cancel task
  | None => mret ()
  end.

(** [for task in self.streams.values(): ...], over the values the map
    has when the loop starts.  The source iterates over the live map: the
    two agree as long as the loop is not suspended, that is when every
    task it meets is done.  At a pending task [stop] is suspended, and a
    relay that ends meanwhile pops its entry from the map under
    iteration, which the next step of the loop answers with
    [RuntimeError]: there [cancel_each] and [stop] do not follow the
    source, and the properties of [stop] that depend on the tasks are
    stated for maps whose tasks are done. *)
Fixpoint cancel_each (tasks : list nat) : M unit :=
  match tasks with
  | [] => mret ()
  | task :: rest => cancel task;; cancel_each rest
  end.

Definition stop (self : nat) : M unit :=
  p ← deref self;
  cancel_each (dict_values (streams p));;
  update self (set_streams []).

Definition unload (self : nat) : M unit :=
  stop self;;
  p ← deref self;
  match module p ≫= (.!! "cleanup") with
  | Some cleanup => _run_in_executor self cleanup [] [];; mret ()
  | None => mret ()
  end.

End PluginInstance.

(** ** [class PluginManager] *)

Module PluginManager.

(** The [Dict[str, Any]] the registry answers with: the keys it may
    hold. *)
Record reply := {
  success : option bool;
  result : option value;
  error : option string;
}.

(** Installation acts on the Python environment only, and its failures
    are logged and swallowed.  Writing the code text is taken to succeed. *)
Definition _install_requirements_global (requirements : list string)
    : M unit :=
  mret ().

Definition load_plugin (plugin_id : string) (python_code : code_unit)
    (requirements : list string) : M reply :=
  try_except
    (modify (λ σ, set_disk (<[plugin_id := python_code]> (disk σ)) σ);;
     (if bool_decide (requirements = []) then mret ()
      else _install_requirements_global requirements);;
     plugin ← gets (λ σ, fresh (dom (heap σ)));
     modify (λ σ, set_heap (<[plugin := new_instance plugin_id]> (heap σ)) σ);;
     PluginInstance.load plugin;;
     modify (λ σ, set_plugins (<[plugin_id := plugin]> (plugins σ)) σ);;
     mret {| success := Some true; result := None; error := None |})
    (λ e, mret {| success := Some false; result := None; error := Some e |}).

Definition execute_plugin_function (plugin_id function_name : string)
    (args : list value) (kw : kwargs) : M reply :=
  plugin ← gets (λ σ, plugins σ !! plugin_id);
  match plugin with
  | None =>
      mret {| success := None; result := None;
              error := Some ("Plugin " +:+ plugin_id +:+ " not loaded") |}
  | Some plugin =>
      try_except
        (result ← PluginInstance.execute_function plugin function_name
                    args kw;
         mret {| success := None; result := Some result; error := None |})
        (λ e, mret {| success := None; result := None; error := Some e |})
  end.

(** [stream_plugin_function] up to the loop of [stream_function]: the
    instance and the task its frames hold. *)
Definition stream_plugin_function_start (plugin_id stream_id : string)
    (function_name : string) (args : list value) (kw : kwargs)
    : M (nat * nat) :=
  plugin ← gets (λ σ, plugins σ !! plugin_id);
  match plugin with
  | None => raise ("Plugin " +:+ plugin_id +:+ " not loaded")
  | Some plugin =>
      task ← PluginInstance.stream_function_start plugin stream_id
               function_name args kw;
      mret (plugin, task)
  end.

(** [async for data in plugin.stream_function(...): yield data] *)
Definition stream_plugin_function_next (plugin : nat) (stream_id : string)
    (task : nat) : M (option value) :=
  PluginInstance.stream_function_next plugin stream_id task.

Definition stop_stream (plugin_id stream_id : string) : M unit :=
  plugin ← gets (λ σ, plugins σ !! plugin_id);
  match plugin with
  | Some plugin => PluginInstance.stop_stream plugin stream_id
  | None => mret ()
  end.

Definition unload_plugin (plugin_id : string) : M unit :=
  plugin ← gets (λ σ, plugins σ !! plugin_id);
  modify (λ σ, set_plugins (delete plugin_id (plugins σ)) σ);;
  match plugin with
  | Some plugin => PluginInstance.unload plugin
  | None => mret ()
  end.

Definition stop_plugin (plugin_id : string) : M unit :=
  plugin ← gets (λ σ, plugins σ !! plugin_id);
  match plugin with
  | Some plugin => PluginInstance.stop plugin
  | None => mret ()
  end.

(** [cleanup]: [keys] is [list(self.plugins.keys())], the ids in the
    order of the Python [dict], which the map of the model does not keep
    and the caller gives. *)
Fixpoint cleanup (keys : list string) : M unit :=
  match keys with
  | [] => mret ()
  | plugin_id :: rest => unload_plugin plugin_id;; cleanup rest
  end.

(** [get_loaded_plugins]: the ids come in the order of the map. *)
Definition get_loaded_plugins (σ : State) : list string :=
  (map_to_list (plugins σ)).*1.

End PluginManager.

(** ** [server.py]: the transport gateway *)

Module Server.

(** A decoded message envelope that is a JSON object, the defaults of
    [message.get] applied; [received] below is what the transport hands
    over in general. *)
Record message := {
  m_type : string;
  m_id : value;
  pythonCode : code_unit;
  requirements : list string;
  function : string;
  args : list value;
  kwargs_ : kwargs;
  streamId : string;
}.

Definition wire_culprit (w : wire) : option value :=
  match w with
  | load_response id _ _ | stream_start_response id _ _
  | stream_stop_response id _ _ | unload_response id _
  | error_response id _ => json_culprit id
  | execute_response id r _ =>
      match json_culprit id with Some c => Some c | None => json_culprit r end
  | stream_data _ data => json_culprit data
  | stream_error _ _ => None
  end.

(** [await websocket.send_json(w)]: the encoder raises [TypeError] on an
    object it cannot serialize. *)
Definition send_json (websocket : nat) (w : wire) : M unit :=
  match wire_culprit w with
  | Some c => raise (json_TypeError c)
  | None => modify (λ σ, set_sent (sent σ ++ [(websocket, w)]) σ)
  end.

(** [asyncio.create_task(handle_stream(...))] *)
Definition create_handler (h : handler) : M unit :=
  modify (λ σ,
    set_handlers (<[fresh (dom (handlers σ)) := h]> (handlers σ)) σ).

Definition handle_plugin_message (plugin_id : string) (message : message)
    : M (option wire) :=
  let msg_type := m_type message in
  let msg_id := m_id message in
  try_except
    (if decide (msg_type = "load") then
       r ← PluginManager.load_plugin plugin_id (pythonCode message)
             (requirements message);
       match PluginManager.success r with
       | Some ok =>
           mret (Some (load_response msg_id ok (PluginManager.error r)))
       | None => raise "'success'"
       end
     else if decide (msg_type = "execute") then
       r ← PluginManager.execute_plugin_function plugin_id (function message)
             (args message) (kwargs_ message);
       mret (Some (execute_response msg_id
                     (default VNone (PluginManager.result r))
                     (PluginManager.error r)))
     else if decide (msg_type = "stream_start") then
       let stream_id := streamId message in
       create_handler (Created plugin_id stream_id (function message)
                         (args message) (kwargs_ message));;
       mret (Some (stream_start_response msg_id stream_id true))
     else if decide (msg_type = "stream_stop") then
       let stream_id := streamId message in
       PluginManager.stop_stream plugin_id stream_id;;
       mret (Some (stream_stop_response msg_id stream_id true))
     else if decide (msg_type = "unload") then
       PluginManager.unload_plugin plugin_id;;
       mret (Some (unload_response msg_id true))
     else mret None)
    (λ e, mret (Some (error_response msg_id e))).

(** [if websocket and plugin_id in connections: send stream_error] *)
Definition report (plugin_id stream_id : string) (websocket : nat)
    (e : string) : M unit :=
  c ← gets (λ σ, connections σ !! plugin_id);
  match c with
  | Some _ => send_json websocket (stream_error stream_id e)
  | None => mret ()
  end.

(** [handle_stream] from its start to its first suspension in the relay
    loop. *)
Definition handle_stream_start (plugin_id stream_id function : string)
    (args : list value) (kw : kwargs) : M handler :=
  websocket ← gets (λ σ, connections σ !! plugin_id);
  match websocket with
  | None => mret Completed
  | Some websocket =>
      try_except
        (pt ← PluginManager.stream_plugin_function_start plugin_id stream_id
                function args kw;
         mret (Relaying plugin_id stream_id websocket pt.1 pt.2))
        (λ e, report plugin_id stream_id websocket e;; mret Completed)
  end.

(** One turn of [async for data in ...] in [handle_stream].  A generator
    that is abandoned suspended at its [yield] (on [break], or when
    [send_json] raises) is finalized, which runs its [finally] clause.  In
    the source that is done by the event loop once the relay task has let
    go of the generator, a few turns after the task has ended; here it is
    part of the turn that abandons the generator.  What a turn writes and
    whether the relay goes on do not depend on it. *)
Definition handle_stream_next (plugin_id stream_id : string)
    (websocket self task : nat) : M handler :=
  try_except
    (r ← PluginManager.stream_plugin_function_next self stream_id task;
     match r with
     | None => mret Completed
     | Some data =>
         try_except
           (c ← gets (λ σ, connections σ !! plugin_id);
            match c with
            | None =>
                PluginInstance.stream_function_finally self stream_id task;;
                mret Completed
            | Some _ =>
                send_json websocket (stream_data stream_id data);;
                mret (Relaying plugin_id stream_id websocket self task)
            end)
           (λ e, report plugin_id stream_id websocket e;;
                 PluginInstance.stream_function_finally self stream_id task;;
                 mret Completed)
     end)
    (λ e, report plugin_id stream_id websocket e;; mret Completed).

Definition handle_stream (h : handler) : M handler :=
  match h with
  | Created plugin_id stream_id function args kw =>
      handle_stream_start plugin_id stream_id function args kw
  | Relaying plugin_id stream_id websocket self task =>
      handle_stream_next plugin_id stream_id websocket self task
  | Completed => mret Completed
  end.

(** [websocket_endpoint], by what wakes it. *)
Definition accept (websocket : nat) (plugin_id : string) : M unit :=
  modify (λ σ,
    set_connections (<[plugin_id := websocket]> (connections σ)) σ).

Definition receive_json (websocket : nat) (plugin_id : string)
    (data : message) : M unit :=
  try_except
    (response ← handle_plugin_message plugin_id data;
     match response with
     | Some response => send_json websocket response
     | None => mret ()
     end)
    (λ e, modify (λ σ,
            set_connections (delete plugin_id (connections σ)) σ)).

(** What [websocket.receive_json] returns is any JSON value, and only an
    object has the [get] that [handle_plugin_message] calls on it in its
    first two lines, before the [try]. *)
Inductive received : Type :=
| JObject (message : message)
| JArray (xs : list value)
| JString (s : string)
| JInt (n : Z)
| JFloat
| JBool (b : bool)
| JNull.

Definition received_type (r : received) : string :=
  match r with
  | JObject _ => "dict" | JArray _ => "list" | JString _ => "str"
  | JInt _ => "int" | JFloat => "float" | JBool _ => "bool"
  | JNull => "NoneType"
  end.

(** [handle_plugin_message] on what was received. *)
Definition handle_received (plugin_id : string) (r : received)
    : M (option wire) :=
  match r with
  | JObject message => handle_plugin_message plugin_id message
  | _ => raise ("'" +:+ received_type r +:+ "' object has no attribute 'get'")
  end.

(** One turn of the loop of [websocket_endpoint] on what was received. *)
Definition receive_any (websocket : nat) (plugin_id : string)
    (r : received) : M unit :=
  try_except
    (response ← handle_received plugin_id r;
     match response with
     | Some response => send_json websocket response
     | None => mret ()
     end)
    (λ e, modify (λ σ,
            set_connections (delete plugin_id (connections σ)) σ)).

Definition WebSocketDisconnect (plugin_id : string) : M unit :=
  modify (λ σ, set_connections (delete plugin_id (connections σ)) σ);;
  PluginManager.stop_plugin plugin_id.

(** The event loop: what the host is woken by, and the transition each
    wake-up makes.  An exception that leaves a task ends that task. *)
Inductive event : Type :=
| connect (websocket : nat) (plugin_id : string)
| receive (websocket : nat) (plugin_id : string) (data : message)
| disconnect (plugin_id : string)
| resume (h : nat).

Definition resume_handler (h : nat) : M unit := λ σ,
  match handlers σ !! h with
  | None => (Ok (), σ)
  | Some t =>
      match handle_stream t σ with
      | (Ok t', σ') => (Ok (), set_handlers (<[h := t']> (handlers σ')) σ')
      | (Exc e, σ') =>
          (Exc e, set_handlers (<[h := Completed]> (handlers σ')) σ')
      end
  end.

Definition dispatch (ev : event) : M unit :=
  match ev with
  | connect websocket plugin_id => accept websocket plugin_id
  | receive websocket plugin_id data => receive_json websocket plugin_id data
  | disconnect plugin_id => WebSocketDisconnect plugin_id
  | resume h => resume_handler h
  end.

Definition step (σ : State) (ev : event) : State := (dispatch ev σ).2.

Definition run (evs : list event) (σ : State) : State := foldl step σ evs.




End Server.

(** ** [check_python.py] *)

Module CheckPython.

(** [check_python_version] on [sys.version_info]; [pip] tells whether
    [subprocess.check_call] of the setuptools installation returns
    ([true]) or raises [CalledProcessError].  The result comes with
    whether the installation was run. *)
Definition check_python_version (major minor : nat) (pip : bool)
    : bool * bool :=
  if ((major <? 3) || ((major =? 3) && (minor <? 8)))%nat then (false, false)
  else if ((major =? 3) && (12 <=? minor))%nat then
    (if pip then (true, true) else (false, true))
  else (true, false).

(** The exit status of the script. *)
Definition main (major minor : nat) (pip : bool) : nat :=
  if (check_python_version major minor pip).1 then 0 else 1.

End CheckPython.

(** ** A sample plugin and sample runs *)

Import Server.

Definition count : pyfunc :=
  {| f_name := "count";
     f_body := GeneratorFunction (λ _ _,
       Ok (GYield (VInt 1) (GYield (VInt 2) (GYield (VInt 3) GReturn)))) |}.

Definition boom : pyfunc :=
  {| f_name := "boom";
     f_body := GeneratorFunction (λ _ _,
       Ok (GYield (VInt 1) (GYield (VInt 2) (GRaise "boom")))) |}.

Definition sparse : pyfunc :=
  {| f_name := "sparse";
     f_body := GeneratorFunction (λ _ _,
       Ok (GYield (VInt 1) (GYield VNone (GYield (VInt 2) GReturn)))) |}.

Definition ticker : pyfunc :=
  {| f_name := "ticker";
     f_body := AsyncGeneratorFunction (λ _ _,
       Ok (AAwait 5 (AYield (VInt 1) (AAwait 5 (AYield (VInt 2) AReturn))))) |}.

Definition stall : pyfunc :=
  {| f_name := "stall";
     f_body := AsyncGeneratorFunction (λ _ _,
       Ok (AAwait 11 (AYield (VInt 1) AReturn))) |}.

Definition cleanup : pyfunc :=
  {| f_name := "cleanup"; f_body := PlainFunction (λ _ _, Ok VNone) |}.

Definition no_camera : pyfunc :=
  {| f_name := "initialize";
     f_body := PlainFunction (λ _ _, Exc "no camera") |}.

Definition camera_module : gmap string pyfunc :=
  list_to_map [("count", count); ("boom", boom); ("sparse", sparse);
               ("ticker", ticker); ("stall", stall); ("cleanup", cleanup)].

Definition camera : code_unit := {| exec_module := Ok camera_module |}.

Definition broken : code_unit :=
  {| exec_module := Exc "invalid syntax (main.py, line 1)" |}.

Definition unplugged : code_unit :=
  {| exec_module := Ok (<["initialize" := no_camera]> camera_module) |}.

Definition request (type : string) (code : code_unit)
    (function streamId : string) : message :=
  {| m_type := type; m_id := VInt 1; pythonCode := code; requirements := [];
     function := function; args := []; kwargs_ := []; streamId := streamId |}.

(** A client is connected as "cam". *)
Definition connected : State := run [connect 0 "cam"] initial.

(** It has loaded the sample plugin. *)
Definition loaded : State :=
  run [receive 0 "cam" (request "load" camera "" "")] connected.

(** The plugin has one stream open, its producer suspended. *)
Definition streaming : State :=
  run [receive 0 "cam" (request "stream_start" camera "ticker" "s1");
       resume 0] loaded.

(** The plugin has two streams open: the producer of the first has
    raised and its queue is still to be relayed, the producer of the
    second is suspended. *)
Definition half_relayed : State :=
  run [receive 0 "cam" (request "stream_start" camera "boom" "s1");
       receive 0 "cam" (request "stream_start" camera "ticker" "s2");
       resume 0; resume 1] loaded.


(** A second sample plugin, with entry points of the other kinds. *)

Definition add : pyfunc :=
  {| f_name := "add";
     f_body := PlainFunction (λ args _,
       match args with
       | [VInt a; VInt b] => Ok (VInt (a + b))
       | _ => Exc "unsupported operand type(s) for +"
       end) |}.

Definition fetch : pyfunc :=
  {| f_name := "fetch";
     f_body := CoroutineFunction (λ _ _,
       Ok {| co_delay := 2; co_result := Ok (VStr "frame") |}) |}.

Definition version : pyfunc :=
  {| f_name := "version"; f_body := PlainFunction (λ _ _, Ok (VInt 3)) |}.

Definition names : pyfunc :=
  {| f_name := "names";
     f_body := PlainFunction (λ _ _, Ok (VList [VStr "usb"; VStr "rtsp"])) |}.

Definition handles : pyfunc :=
  {| f_name := "handles";
     f_body := GeneratorFunction (λ _ _,
       Ok (GYield (VInt 1) (GYield (VGenerator GReturn) (GYield (VInt 2)
             GReturn)))) |}.

Definition raw : pyfunc :=
  {| f_name := "raw";
     f_body := PlainFunction (λ _ _, Ok (VGenerator GReturn)) |}.

Definition burst : pyfunc :=
  {| f_name := "burst";
     f_body := AsyncGeneratorFunction (λ _ _,
       Ok (AYield (VInt 1) (AYield (VInt 2) (AAwait 5 (AYield (VInt 3)
             AReturn))))) |}.

Definition faulty_cleanup : pyfunc :=
  {| f_name := "cleanup";
     f_body := PlainFunction (λ _ _, Exc "camera busy") |}.

Definition tools_module : gmap string pyfunc :=
  list_to_map [("add", add); ("fetch", fetch); ("version", version);
               ("names", names); ("handles", handles); ("boom", boom);
               ("ticker", ticker); ("raw", raw); ("burst", burst);
               ("cleanup", faulty_cleanup)].

Definition tools : code_unit := {| exec_module := Ok tools_module |}.

(** A client is connected as "cam" and has loaded the second plugin. *)
Definition equipped : State :=
  run [receive 0 "cam" (request "load" tools "" "")] connected.

(** The request to execute [add] on 2 and 3. *)
Definition add_2_3 : message :=
  {| m_type := "execute"; m_id := VInt 2; pythonCode := tools;
     requirements := []; function := "add"; args := [VInt 2; VInt 3];
     kwargs_ := []; streamId := "" |}.


(** The connection has dropped between a [stream_start] request and the
    first turn of its relay. *)
Definition orphaned : State :=
  run [receive 0 "cam" (request "stream_start" camera "count" "s1");
       disconnect "cam"] loaded.



(** A generator function that keeps the thread for 11 time units before
    its only item, as [time.sleep(11)] followed by [yield 1] does. *)
Definition slow : pyfunc :=
  {| f_name := "slow";
     f_body := GeneratorFunction (λ _ _,
       Ok (GBlock 11 (GYield (VInt 1) GReturn))) |}.

Definition slow_code : code_unit :=
  {| exec_module := Ok {[ "slow" := slow ]} |}.

(** A client is connected as "cam" and has loaded that plugin. *)
Definition drowsy : State :=
  run [receive 0 "cam" (request "load" slow_code "" "")] connected.

(** A stream whose producer has returned and whose queue is still to be
    relayed. *)
Definition counting : State :=
  run [receive 0 "cam" (request "stream_start" camera "count" "s1");
       resume 0] loaded.


(** ** Vocabulary of the properties *)

(** What iterating a generator gives: the values it yields, and how the
    task that iterates it ends. *)
Fixpoint yields (g : generator) : list value :=
  match g with
  | GReturn | GRaise _ => []
  | GYield v k => v :: yields k
  | GBlock _ k => yields k
  end.

Fixpoint ending (g : generator) : task_state :=
  match g with
  | GReturn => Finished
  | GRaise e => Failed e
  | GYield _ k | GBlock _ k => ending k
  end.


(** The values an async generator yields, and whether each of its steps
    (a yield, or its end) comes less than [STREAM_TIMEOUT] after the one
    before, [w] being the time gone since that one. *)
Fixpoint async_yields (g : async_generator) : list value :=
  match g with
  | AReturn | ARaise _ => []
  | AYield v k => v :: async_yields k
  | AAwait _ k => async_yields k
  end.

Fixpoint unhurried (w : nat) (g : async_generator) : Prop :=
  match g with
  | AReturn | ARaise _ => True
  | AYield _ k => unhurried 0 k
  | AAwait d k => w + d < STREAM_TIMEOUT ∧ unhurried (w + d) k
  end.

(** The same for a producer coroutine and for a producer task: what it
    is still to put, after what is queued. *)
Fixpoint puts (c : coro) : list value :=
  match c with
  | CPut v k => v :: puts k
  | CAwait _ k => puts k
  | CReturn | CRaise _ => []
  end.

Fixpoint prompt (w : nat) (c : coro) : Prop :=
  match c with
  | CReturn | CRaise _ => True
  | CPut _ k => prompt 0 k
  | CAwait d k => w + d < STREAM_TIMEOUT ∧ prompt (w + d) k
  end.

Definition pending (t : Task) : list value :=
  t_queue t ++ match t_state t with
               | Suspended _ k => puts k
               | _ => []
               end.

Definition prompt_task (t : Task) : Prop :=
  match t_state t with
  | Suspended d k => prompt 0 (CAwait d k)
  | _ => True
  end.

(** The time a generator keeps the thread before its first step, a yield
    or its end. *)
Fixpoint silence (g : generator) : nat :=
  match g with
  | GBlock d k => d + silence k
  | _ => 0
  end.


(** A task that is over and not with an exception: awaiting it returns,
    or raises [CancelledError], at once. *)
Definition settled (t : Task) : Prop :=
  t_state t = Finished ∨ t_state t = Cancelled.




(** * Properties *)

(** ** Stepping the host code *)

Lemma bind_Ok {A B} (m : M A) (f : A → M B) σ a σ' :
  m σ = (Ok a, σ') → (m ≫= f) σ = f a σ'.
Proof. intros H. unfold mbind, M_bind. by rewrite H. Qed.

Lemma bind_Exc {A B} (m : M A) (f : A → M B) σ e σ' :
  m σ = (Exc e, σ') → (m ≫= f) σ = (Exc e, σ').
Proof. intros H. unfold mbind, M_bind. by rewrite H. Qed.

Lemma try_except_Ok {A} (m : M A) h σ a σ' :
  m σ = (Ok a, σ') → try_except m h σ = (Ok a, σ').
Proof. intros H. unfold try_except. by rewrite H. Qed.

Lemma try_except_Exc {A} (m : M A) h σ e σ' :
  m σ = (Exc e, σ') → try_except m h σ = h e σ'.
Proof. intros H. unfold try_except. by rewrite H. Qed.

(** ** Execute *)

Lemma execute_not_loaded σ plugin_id function_name args kw :
  plugins σ !! plugin_id = None →
  PluginManager.execute_plugin_function plugin_id function_name args kw σ =
  (Ok {| PluginManager.success := None; PluginManager.result := None;
         PluginManager.error :=
           Some ("Plugin " +:+ plugin_id +:+ " not loaded") |},
   σ).
Proof.
  intros H. unfold PluginManager.execute_plugin_function.
  erewrite bind_Ok; last by (unfold gets; rewrite H). done.
Qed.

(** C5: an [execute] request that names a plugin id with no registered
    instance is answered by an [execute_response] whose [error] field holds
    the not-loaded error, and no exception leaves the handler or the turn of
    [websocket_endpoint] that serves the request: the response is written
    to the connection and the host state is otherwise untouched. *)
Theorem execute_unknown_plugin_returns_error
    (σ : State) (websocket : nat) (plugin_id : string) (data : message) :
  m_type data = "execute" →
  plugins σ !! plugin_id = None →
  json_serializable (m_id data) = true →
  let response :=
    execute_response (m_id data) VNone
      (Some ("Plugin " +:+ plugin_id +:+ " not loaded")) in
  handle_plugin_message plugin_id data σ = (Ok (Some response), σ) ∧
  receive_json websocket plugin_id data σ =
    (Ok (), set_sent (sent σ ++ [(websocket, response)]) σ).
Proof.
  intros Htype Hnone Hid response.
  assert (Hh : handle_plugin_message plugin_id data σ = (Ok (Some response), σ)).
  { unfold handle_plugin_message. rewrite Htype.
    rewrite decide_False by done. rewrite decide_True by done.
    apply try_except_Ok.
    erewrite bind_Ok; last by apply execute_not_loaded. done. }
  split; [done|].
  unfold receive_json. apply try_except_Ok.
  erewrite bind_Ok; last done.
  unfold send_json, response; simpl.
  unfold json_serializable in Hid.
  destruct (json_culprit (m_id data)); [done|]. done.
Qed.

(** ** Load *)

Lemma fresh_instance_None (σ : State) : heap σ !! fresh (dom (heap σ)) = None.
Proof. apply not_elem_of_dom, is_fresh. Qed.

Lemma fresh_instance_ne (σ : State) self p :
  heap σ !! self = Some p → fresh (dom (heap σ)) ≠ self.
Proof.
  intros H Heq. rewrite <- Heq in H. by rewrite fresh_instance_None in H.
Qed.

(** C10: when [load] fails, because the code unit cannot be executed or
    because its [initialize] entry point raises, it answers success=false
    with the error string, the registry map is what it was (so the id is
    not added, and an instance registered under it stays registered), and
    every instance object that existed is unchanged; no producer task, relay
    task or connection is touched either. *)
Theorem load_failure_keeps_registry
    (σ : State) (plugin_id : string) (python_code : code_unit)
    (requirements : list string) (e : string) :
  (exec_module python_code = Exc e ∨
   ∃ m initialize, exec_module python_code = Ok m ∧
     m !! "initialize" = Some initialize ∧ call initialize [] [] = Exc e) →
  let r := (PluginManager.load_plugin plugin_id python_code requirements σ).1 in
  let σ' := (PluginManager.load_plugin plugin_id python_code requirements σ).2 in
  r = Ok {| PluginManager.success := Some false; PluginManager.result := None;
            PluginManager.error := Some e |} ∧
  plugins σ' = plugins σ ∧
  (∀ self p, heap σ !! self = Some p → heap σ' !! self = Some p) ∧
  tasks σ' = tasks σ ∧ handlers σ' = handlers σ ∧
  connections σ' = connections σ ∧ sent σ' = sent σ.
Proof.
  intros Hfail.
  pose proof (fresh_instance_ne σ) as Hne.
  unfold PluginManager.load_plugin, PluginManager._install_requirements_global,
    PluginInstance.load, PluginInstance._run_in_executor, try_except, mbind, M_bind,
    mret, M_ret, gets, modify, deref, update, outcome_result, instance_at.
  destruct σ as [pl hp tk hd cn st dk po]; simpl in *.
  destruct (bool_decide (requirements = [])); simpl.
  all: rewrite !lookup_insert_eq; simpl.
  all: destruct Hfail as [-> | (m & initialize & -> & Hi & Hc)]; simpl.
  all: try (rewrite Hi; simpl; rewrite Hc; simpl).
  all: repeat split; try done.
  all: intros self p Hp; try rewrite lookup_alter_ne by eauto.
  all: by rewrite lookup_insert_ne by eauto.
Qed.

(** C4, as the code has it: a registry maps a plugin id to at most one
    instance, and a successful [load] on an id points it to the new
    instance by overwriting the entry.  The instance that was registered is
    not unloaded: every instance object that existed, with its stream map,
    is unchanged, no producer task is cancelled, and the worker pool is
    handed nothing but the [initialize] of the new instance, so no
    [cleanup] runs. *)
Theorem load_overwrites_without_unloading
    (σ : State) (plugin_id : string) (python_code : code_unit)
    (requirements : list string) (m : gmap string pyfunc) :
  exec_module python_code = Ok m →
  (∀ initialize, m !! "initialize" = Some initialize →
     ∃ v, call initialize [] [] = Ok v) →
  let new := fresh (dom (heap σ)) in
  let r := (PluginManager.load_plugin plugin_id python_code requirements σ).1 in
  let σ' := (PluginManager.load_plugin plugin_id python_code requirements σ).2 in
  r = Ok {| PluginManager.success := Some true; PluginManager.result := None;
            PluginManager.error := None |} ∧
  plugins σ' = <[plugin_id := new]> (plugins σ) ∧
  (∀ self, plugins σ' !! plugin_id = Some self → self = new) ∧
  heap σ' !! new =
    Some {| plugin_id := plugin_id; module := Some m; streams := [] |} ∧
  (∀ old p, heap σ !! old = Some p → heap σ' !! old = Some p) ∧
  tasks σ' = tasks σ ∧
  pool σ' = pool σ ++ match m !! "initialize" with
                      | Some initialize => [(new, f_name initialize)]
                      | None => []
                      end.
Proof.
  intros Hexec Hinit.
  pose proof (fresh_instance_ne σ) as Hne.
  unfold PluginManager.load_plugin, PluginManager._install_requirements_global,
    PluginInstance.load, PluginInstance._run_in_executor, try_except, mbind, M_bind,
    mret, M_ret, gets, modify, deref, update, outcome_result, instance_at.
  destruct σ as [pl hp tk hd cn st dk po]; simpl in *.
  destruct (bool_decide (requirements = [])); simpl.
  all: rewrite !lookup_insert_eq; simpl; rewrite Hexec; simpl.
  all: destruct (m !! "initialize") as [initialize|] eqn:Hi; simpl.
  all: try (destruct (Hinit initialize eq_refl) as [v ->]; simpl).
  all: rewrite ?app_nil_r.
  all: repeat split; try done.
  all: try (intros self; rewrite lookup_insert_eq; congruence).
  all: try (by rewrite lookup_alter_eq, lookup_insert_eq).
  all: intros old p Hp; rewrite lookup_alter_ne by eauto.
  all: by rewrite lookup_insert_ne by eauto.
Qed.

(** ** Execute on a sequence-producing entry point *)

(** C1, as the code has it: [execute] makes no check of the shape.  On an
    entry point that is a generator function or an async generator
    function, whenever the call binds its arguments, [execute] hands the
    call to the worker pool and answers with the generator object itself
    as [result] and no [error]: nothing is iterated and no error is
    raised. *)
Theorem execute_makes_no_shape_check
    (σ : State) (plugin_id : string) (self : nat) (p : plugin_instance)
    (m : gmap string pyfunc) (function_name : string) (func : pyfunc)
    (args : list value) (kw : kwargs) (v : value) :
  plugins σ !! plugin_id = Some self →
  heap σ !! self = Some p →
  module p = Some m →
  m !! function_name = Some func →
  isgeneratorfunction func = true ∨ isasyncgenfunction func = true →
  call func args kw = Ok v →
  PluginManager.execute_plugin_function plugin_id function_name args kw σ =
    (Ok {| PluginManager.success := None; PluginManager.result := Some v;
           PluginManager.error := None |},
     set_pool (pool σ ++ [(self, f_name func)]) σ) ∧
  ((∃ g, v = VGenerator g) ∨ (∃ g, v = VAsyncGenerator g)).
Proof.
  intros Hreg Hself Hmod Hfn Hshape Hcall. split.
  - unfold PluginManager.execute_plugin_function.
    erewrite bind_Ok; last by (unfold gets; rewrite Hreg).
    apply try_except_Ok.
    unfold PluginInstance.execute_function, PluginInstance._run_in_executor, deref,
      instance_at, gets, modify, outcome_result, mbind, M_bind, mret, M_ret.
    rewrite Hself; simpl. rewrite Hmod; simpl. rewrite Hfn.
    unfold isgeneratorfunction, isasyncgenfunction in Hshape.
    destruct (f_body func) eqn:Hb; destruct Hshape; try done.
    all: by rewrite Hcall.
  - unfold isgeneratorfunction, isasyncgenfunction in Hshape.
    unfold call in Hcall.
    destruct (f_body func) eqn:Hb; destruct Hshape; try done.
    all: destruct (f args kw); simplify_eq; eauto.
Qed.

(** ** Streaming: one turn of the relay *)

Ltac unfold_host :=
  unfold handle_stream_next, handle_stream_start, report, send_json,
    PluginManager.stream_plugin_function_next, PluginManager.stream_plugin_function_start,
    PluginInstance.stream_function_next, PluginInstance.stream_function_start,
    PluginInstance.stream_function_finally, cancel, create_task,
    get_task, put_task, task_at, deref, update, instance_at,
    try_except, raise, gets, modify, outcome_result,
    mbind, M_bind, mret, M_ret.

Lemma handle_stream_next_data σ pid sid ws ws' self task st v q :
  tasks σ !! task = Some {| t_state := st; t_queue := v :: q |} →
  is_None v = false →
  json_serializable v = true →
  connections σ !! pid = Some ws' →
  handle_stream_next pid sid ws self task σ =
    (Ok (Relaying pid sid ws self task),
     set_sent (sent σ ++ [(ws, stream_data sid v)])
       (set_tasks (<[task := {| t_state := st; t_queue := q |}]> (tasks σ)) σ)).
Proof.
  intros Ht Hv Hj Hc. unfold json_serializable in Hj.
  unfold_host. destruct σ as [pl hp tk hd cn sn dk po]; simpl in *.
  rewrite Ht; simpl. rewrite Hv; simpl. rewrite Hc; simpl.
  destruct (json_culprit v); [done|]. done.
Qed.

Lemma handle_stream_next_end σ pid sid ws self task st q :
  tasks σ !! task = Some {| t_state := st; t_queue := VNone :: q |} →
  task_done {| t_state := st; t_queue := q |} = true →
  handle_stream_next pid sid ws self task σ =
    (Ok Completed,
     set_heap (alter (λ p, set_streams (dict_remove sid (streams p)) p) self
                 (heap σ))
       (set_tasks (<[task := {| t_state := st; t_queue := q |}]> (tasks σ)) σ)).
Proof.
  intros Ht Hd.
  unfold_host. destruct σ as [pl hp tk hd cn sn dk po]; simpl in *.
  rewrite Ht; simpl. rewrite lookup_insert_eq; simpl.
  unfold task_done in *; simpl in *. by rewrite Hd.
Qed.

Lemma resume_Relaying σ h pid sid ws self task t' σ' :
  handlers σ !! h = Some (Relaying pid sid ws self task) →
  handle_stream_next pid sid ws self task σ = (Ok t', σ') →
  step σ (resume h) = set_handlers (<[h := t']> (handlers σ')) σ'.
Proof.
  intros Hh Hn. unfold step, dispatch, resume_handler. rewrite Hh; simpl.
  by rewrite Hn.
Qed.

Lemma resume_Completed σ h :
  handlers σ !! h = Some Completed → step σ (resume h) = σ.
Proof.
  intros Hh. unfold step, dispatch, resume_handler. rewrite Hh; simpl.
  destruct σ; simpl in *. unfold set_handlers; simpl. f_equal.
  by apply insert_id.
Qed.

(** The relay drains a queue whose producer is over: every item before
    the end marker goes out, in order, and then the stream is removed. *)
Lemma relay_queue h pid sid ws ws' self task st q vs : ∀ σ,
  handlers σ !! h = Some (Relaying pid sid ws self task) →
  tasks σ !! task = Some {| t_state := st; t_queue := vs ++ VNone :: q |} →
  task_done {| t_state := st; t_queue := q |} = true →
  Forall (λ v, is_None v = false ∧ json_serializable v = true) vs →
  connections σ !! pid = Some ws' →
  run (replicate (S (length vs)) (resume h)) σ =
    set_handlers (<[h := Completed]> (handlers σ))
      (set_heap (alter (λ p, set_streams (dict_remove sid (streams p)) p) self
                   (heap σ))
         (set_tasks (<[task := {| t_state := st; t_queue := q |}]> (tasks σ))
            (set_sent (sent σ ++ ((λ v, (ws, stream_data sid v)) <$> vs)) σ))).
Proof.
  induction vs as [|v vs IH]; intros σ Hh Ht Hd Hvs Hc.
  - simpl. unfold run; simpl.
    erewrite resume_Relaying; [|done|by eapply handle_stream_next_end].
    destruct σ; simpl. unfold set_handlers, set_heap, set_tasks, set_sent.
    simpl. by rewrite app_nil_r.
  - apply Forall_cons in Hvs as [[Hv Hj] Hvs].
    change (run (replicate (S (length (v :: vs))) (resume h)) σ)
      with (run (replicate (S (length vs)) (resume h)) (step σ (resume h))).
    erewrite resume_Relaying; [|done|by eapply handle_stream_next_data].
    rewrite IH; try done.
    + destruct σ; simpl. unfold set_handlers, set_heap, set_tasks, set_sent.
      simpl. rewrite !insert_insert_eq, <- app_assoc. done.
    + destruct σ; simpl. by rewrite lookup_insert_eq.
    + destruct σ; simpl. by rewrite lookup_insert_eq.
Qed.

(** ** Streaming: the producer *)

Lemma drive_generator g : ∀ q,
  drive (finally_put_None (put_each_generator g)) q =
    {| t_state := ending g; t_queue := q ++ yields g ++ [VNone] |}.
Proof.
  induction g as [|v g IH|e|d g IH]; intros q; simpl; [done| |done|done].
  rewrite IH. by rewrite <- app_assoc.
Qed.

Lemma drive_generator_function func b args kw g :
  f_body func = GeneratorFunction b →
  b args kw = Ok g →
  drive (_run_streaming_function func args kw) [] =
    {| t_state := ending g; t_queue := yields g ++ [VNone] |}.
Proof.
  intros Hb Hg. unfold _run_streaming_function. rewrite Hb, Hg.
  by rewrite drive_generator.
Qed.

Lemma ending_done g q : task_done {| t_state := ending g; t_queue := q |} = true.
Proof. unfold task_done; simpl. by induction g. Qed.

Lemma handle_stream_start_loaded σ pid sid fn args kw ws self p m func :
  connections σ !! pid = Some ws →
  plugins σ !! pid = Some self →
  heap σ !! self = Some p →
  module p = Some m →
  m !! fn = Some func →
  let task := fresh (dom (tasks σ)) in
  handle_stream_start pid sid fn args kw σ =
    (Ok (Relaying pid sid ws self task),
     set_heap (alter (λ p, set_streams (dict_set sid task (streams p)) p) self
                 (heap σ))
       (set_tasks (<[task := drive (_run_streaming_function func args kw) []]>
                     (tasks σ)) σ)).
Proof.
  intros Hc Hr Hs Hm Hf task.
  unfold_host. destruct σ as [pl hp tk hd cn sn dk po]; simpl in *.
  rewrite Hc; simpl. rewrite Hr; simpl. rewrite Hs; simpl.
  rewrite Hm; simpl. by rewrite Hf.
Qed.

Lemma resume_Created σ h pid sid fn args kw t' σ' :
  handlers σ !! h = Some (Created pid sid fn args kw) →
  handle_stream_start pid sid fn args kw σ = (Ok t', σ') →
  step σ (resume h) = set_handlers (<[h := t']> (handlers σ')) σ'.
Proof.
  intros Hh Hn. unfold step, dispatch, resume_handler. rewrite Hh; simpl.
  by rewrite Hn.
Qed.

(** A stream over a generator function, from the start of its relay task
    to its end: the values yielded go out in the order of the generator,
    whatever way the generator ends. *)
Lemma relay_generator_function σ h pid sid fn args kw ws self p m func b g :
  handlers σ !! h = Some (Created pid sid fn args kw) →
  connections σ !! pid = Some ws →
  plugins σ !! pid = Some self →
  heap σ !! self = Some p →
  module p = Some m →
  m !! fn = Some func →
  f_body func = GeneratorFunction b →
  b args kw = Ok g →
  Forall (λ v, is_None v = false ∧ json_serializable v = true) (yields g) →
  let task := fresh (dom (tasks σ)) in
  run (replicate (2 + length (yields g)) (resume h)) σ =
    set_handlers (<[h := Completed]> (handlers σ))
      (set_heap
         (alter (λ p, set_streams
                   (dict_remove sid (dict_set sid task (streams p))) p) self
            (heap σ))
         (set_tasks (<[task := {| t_state := ending g; t_queue := [] |}]>
                       (tasks σ))
            (set_sent (sent σ ++ ((λ v, (ws, stream_data sid v)) <$> yields g))
               σ))).
Proof.
  intros Hh Hc Hr Hs Hm Hf Hb Hg Hvs task.
  change (run (replicate (2 + length (yields g)) (resume h)) σ)
    with (run (replicate (S (length (yields g))) (resume h))
            (step σ (resume h))).
  erewrite resume_Created; [|done|by eapply handle_stream_start_loaded].
  erewrite drive_generator_function by done.
  erewrite (relay_queue h pid sid ws ws self (fresh (dom (tasks σ)))
              (ending g) [] (yields g)); try done.
  - destruct σ; simpl. unfold set_handlers, set_heap, set_tasks, set_sent.
    simpl. rewrite !insert_insert_eq. f_equal.
    rewrite alter_alter_eq. done.
  - destruct σ; simpl. by rewrite lookup_insert_eq.
  - destruct σ; simpl. by rewrite lookup_insert_eq.
  - apply ending_done.
Qed.

(** ** Streaming: from the request to the end of the relay *)

Lemma handle_stream_start_message σ pid data :
  m_type data = "stream_start" →
  handle_plugin_message pid data σ =
    (Ok (Some (stream_start_response (m_id data) (streamId data) true)),
     set_handlers
       (<[fresh (dom (handlers σ)) :=
            Created pid (streamId data) (function data) (args data)
              (kwargs_ data)]> (handlers σ)) σ).
Proof.
  intros Htype. unfold handle_plugin_message. rewrite Htype.
  do 2 (rewrite decide_False by done). rewrite decide_True by done.
  done.
Qed.

Lemma receive_stream_start σ ws pid data :
  m_type data = "stream_start" →
  json_serializable (m_id data) = true →
  step σ (receive ws pid data) =
    set_sent
      (sent σ ++ [(ws, stream_start_response (m_id data) (streamId data) true)])
      (set_handlers
         (<[fresh (dom (handlers σ)) :=
              Created pid (streamId data) (function data) (args data)
                (kwargs_ data)]> (handlers σ)) σ).
Proof.
  intros Htype Hid. unfold step, dispatch, receive_json.
  erewrite try_except_Ok; [done|].
  erewrite bind_Ok; last by apply handle_stream_start_message.
  unfold send_json; simpl. unfold json_serializable in Hid.
  by destruct (json_culprit (m_id data)).
Qed.

Lemma run_Completed σ h n :
  handlers σ !! h = Some Completed → run (replicate n (resume h)) σ = σ.
Proof.
  intros Hh. induction n as [|n IH]; [done|].
  change (run (replicate (S n) (resume h)) σ)
    with (run (replicate n (resume h)) (step σ (resume h))).
  by rewrite resume_Completed.
Qed.

(** C7: for an entry point that is a generator function yielding 1, 2, 3,
    a [stream_start] request followed by the turns of its relay task puts
    on the connection the acknowledgement and then exactly three
    [stream_data] events with payloads 1, 2, 3 in that order; the relay
    task is then over, and resuming it any number of times changes
    nothing, so no further event follows. *)
Theorem stream_of_three_items_in_order
    (σ : State) (ws : nat) (pid : string) (self : nat) (p : plugin_instance)
    (m : gmap string pyfunc) (data : message) (func : pyfunc)
    (b : list value → kwargs → outcome generator) :
  m_type data = "stream_start" →
  json_serializable (m_id data) = true →
  connections σ !! pid = Some ws →
  plugins σ !! pid = Some self →
  heap σ !! self = Some p →
  module p = Some m →
  m !! function data = Some func →
  f_body func = GeneratorFunction b →
  b (args data) (kwargs_ data) =
    Ok (GYield (VInt 1) (GYield (VInt 2) (GYield (VInt 3) GReturn))) →
  let h := fresh (dom (handlers σ)) in
  let σ' := run (receive ws pid data :: replicate 5 (resume h)) σ in
  sent σ' =
    sent σ ++ [(ws, stream_start_response (m_id data) (streamId data) true);
               (ws, stream_data (streamId data) (VInt 1));
               (ws, stream_data (streamId data) (VInt 2));
               (ws, stream_data (streamId data) (VInt 3))] ∧
  handlers σ' !! h = Some Completed ∧
  ∀ n, run (replicate n (resume h)) σ' = σ'.
Proof.
  intros Htype Hid Hc Hr Hs Hm Hf Hb Hg h σ'.
  assert (Hσ' : sent σ' =
    sent σ ++ [(ws, stream_start_response (m_id data) (streamId data) true);
               (ws, stream_data (streamId data) (VInt 1));
               (ws, stream_data (streamId data) (VInt 2));
               (ws, stream_data (streamId data) (VInt 3))] ∧
    handlers σ' !! h = Some Completed).
  { subst σ'.
    change (run (receive ws pid data :: replicate 5 (resume h)) σ)
      with (run (replicate 5 (resume h)) (step σ (receive ws pid data))).
    rewrite receive_stream_start by done.
    erewrite (relay_generator_function _ h pid (streamId data) (function data)
                (args data) (kwargs_ data) ws self p m func b
                (GYield (VInt 1) (GYield (VInt 2) (GYield (VInt 3) GReturn))));
      try done.
    - destruct σ; simpl. split; [by rewrite <- app_assoc|].
      by rewrite lookup_insert_eq.
    - destruct σ; simpl. by rewrite lookup_insert_eq.
    - simpl. repeat constructor. }
  destruct Hσ' as [Hsent Hh]. repeat split; [done|done|].
  intros n. by apply run_Completed.
Qed.

Lemma handle_stream_start_not_loaded σ pid sid fn args kw ws :
  connections σ !! pid = Some ws →
  plugins σ !! pid = None →
  handle_stream_start pid sid fn args kw σ =
    (Ok Completed,
     set_sent (sent σ ++ [(ws, stream_error sid
                                 ("Plugin " +:+ pid +:+ " not loaded"))]) σ).
Proof.
  intros Hc Hr. unfold_host.
  destruct σ as [pl hp tk hd cn sn dk po]; simpl in *.
  rewrite Hc; simpl. rewrite Hr; simpl. by rewrite Hc.
Qed.

Lemma handle_stream_start_not_found σ pid sid fn args kw ws self :
  connections σ !! pid = Some ws →
  plugins σ !! pid = Some self →
  module (instance_at σ self) ≫= (.!! fn) = None →
  handle_stream_start pid sid fn args kw σ =
    (Ok Completed,
     set_sent (sent σ ++ [(ws, stream_error sid
                                 ("Function " +:+ fn +:+
                                  " not found in plugin"))]) σ).
Proof.
  intros Hc Hr Hf. unfold_host. unfold instance_at in Hf.
  destruct σ as [pl hp tk hd cn sn dk po]; simpl in *.
  unfold mbind in Hf.
  rewrite Hc; simpl. rewrite Hr; simpl. rewrite Hf; simpl. by rewrite Hc.
Qed.

(** C6, as the code has it: a [stream_start] request is acknowledged with
    success=true before any lookup is made, and the acknowledgement has no
    [error] field.  The lookup runs in the relay task started in the
    background: when no instance is registered under the plugin id, or the
    instance has no entry point of that name, the relay task sends one
    [stream_error] event with the stream id and the error, after the
    acknowledgement, and ends; registry, instances and producer tasks are
    untouched. *)
Theorem stream_start_acknowledged_then_stream_error
    (σ : State) (ws : nat) (pid : string) (data : message) (e : string) :
  m_type data = "stream_start" →
  json_serializable (m_id data) = true →
  connections σ !! pid = Some ws →
  (plugins σ !! pid = None ∧ e = "Plugin " +:+ pid +:+ " not loaded") ∨
  (∃ self, plugins σ !! pid = Some self ∧
     module (instance_at σ self) ≫= (.!! function data) = None ∧
     e = "Function " +:+ function data +:+ " not found in plugin") →
  let h := fresh (dom (handlers σ)) in
  let σ' := run [receive ws pid data; resume h] σ in
  sent σ' =
    sent σ ++ [(ws, stream_start_response (m_id data) (streamId data) true);
               (ws, stream_error (streamId data) e)] ∧
  handlers σ' !! h = Some Completed ∧
  plugins σ' = plugins σ ∧ heap σ' = heap σ ∧ tasks σ' = tasks σ.
Proof.
  intros Htype Hid Hc Hlookup h σ'. subst σ'.
  change (run [receive ws pid data; resume h] σ)
    with (step (step σ (receive ws pid data)) (resume h)).
  rewrite receive_stream_start by done.
  destruct Hlookup as [[Hr ->] | (self & Hr & Hf & ->)].
  - erewrite resume_Created;
      [|by (destruct σ; simpl; apply lookup_insert_eq)
       |by (apply handle_stream_start_not_loaded; destruct σ)].
    destruct σ; simpl. rewrite lookup_insert_eq, <- app_assoc. done.
  - erewrite resume_Created;
      [|by (destruct σ; simpl; apply lookup_insert_eq)
       |by (eapply handle_stream_start_not_found; destruct σ)].
    destruct σ; simpl. rewrite lookup_insert_eq, <- app_assoc. done.
Qed.

(** ** Streaming: the end marker *)

(** C3, as the code has it: the end marker is [None], a value a plugin
    can yield as well.  Every value the consumer pulls that is not [None] is
    yielded to the relay, and the queue goes on from the next item; a
    [None] it pulls ends the stream, whether it is the marker or a value
    of the producer: nothing is yielded, and the stream id is removed from
    the stream map of the instance. *)
Theorem consumer_relays_all_but_None
    (σ : State) (self : nat) (sid : string) (task : nat)
    (st : task_state) (v : value) (q : list value) :
  tasks σ !! task = Some {| t_state := st; t_queue := v :: q |} →
  (is_None v = false →
   PluginInstance.stream_function_next self sid task σ =
     (Ok (Some v),
      set_tasks (<[task := {| t_state := st; t_queue := q |}]> (tasks σ)) σ)) ∧
  (is_None v = true →
   let r := PluginInstance.stream_function_next self sid task σ in
   r.1 = Ok None ∧
   heap r.2 =
     alter (λ p, set_streams (dict_remove sid (streams p)) p) self (heap σ)).
Proof.
  intros Ht. split; intros Hv.
  - unfold_host. destruct σ as [pl hp tk hd cn sn dk po]; simpl in *.
    rewrite Ht; simpl. by rewrite Hv.
  - unfold_host. destruct σ as [pl hp tk hd cn sn dk po]; simpl in *.
    rewrite Ht; simpl. rewrite Hv; simpl. rewrite lookup_insert_eq; simpl.
    unfold task_done, cancel_and_await; simpl.
    destruct st; simpl; rewrite ?lookup_insert_eq; simpl; done.
Qed.

(** ** Streaming: the inactivity timeout *)







(** ** The sample runs *)

Lemma loaded_state :
  plugins loaded !! "cam" = Some 0 ∧
  heap loaded !! 0 =
    Some {| plugin_id := "cam"; module := Some camera_module; streams := [] |} ∧
  connections loaded !! "cam" = Some 0 ∧
  sent loaded = [(0, load_response (VInt 1) true None)].
Proof. vm_compute. done. Qed.

Lemma streaming_state :
  plugins streaming !! "cam" = Some 0 ∧
  (streams <$> heap streaming !! 0) = Some [("s1", 0)] ∧
  tasks streaming !! 0 =
    Some {| t_state := Suspended 5 (CPut (VInt 1) (CAwait 5
                         (CPut (VInt 2) (CPut VNone CReturn))));
            t_queue := [] |} ∧
  handlers streaming !! 0 = Some (Relaying "cam" "s1" 0 0 0).
Proof. vm_compute. done. Qed.

Lemma half_relayed_state :
  (streams <$> heap half_relayed !! 0) = Some [("s1", 0); ("s2", 1)] ∧
  tasks half_relayed !! 0 =
    Some {| t_state := Failed "boom"; t_queue := [VInt 1; VInt 2; VNone] |} ∧
  (t_queue <$> tasks half_relayed !! 1) = Some [] ∧
  (task_done <$> tasks half_relayed !! 1) = Some false.
Proof. vm_compute. done. Qed.

(** ** A producer that raises *)

(** C2, at a producer that yields 1 and 2 and then raises: the producer
    pushes 1, 2 and the end marker and ends with its exception; the relay
    sends the two [stream_data] events, reads the end marker, finds the
    task done and so does not await it, removes the stream id and is over.
    No [stream_error] event is sent, then or later: the exception stays in
    the task, which nothing awaits. *)
Theorem producer_error_is_not_reported :
  let ack := stream_start_response (VInt 1) "s1" true in
  let σ0 := run [receive 0 "cam" (request "stream_start" camera "boom" "s1");
                 resume 0] loaded in
  let σ' := run (replicate 3 (resume 0)) σ0 in
  call boom [] [] =
    Ok (VGenerator (GYield (VInt 1) (GYield (VInt 2) (GRaise "boom")))) ∧
  tasks σ0 !! 0 =
    Some {| t_state := Failed "boom"; t_queue := [VInt 1; VInt 2; VNone] |} ∧
  sent σ' = sent loaded ++ [(0, ack); (0, stream_data "s1" (VInt 1));
                            (0, stream_data "s1" (VInt 2))] ∧
  Forall (λ f, ∀ sid e, f.2 ≠ stream_error sid e) (sent σ') ∧
  handlers σ' !! 0 = Some Completed ∧
  (streams <$> heap σ' !! 0) = Some [] ∧
  tasks σ' !! 0 = Some {| t_state := Failed "boom"; t_queue := [] |} ∧
  ∀ n, run (replicate n (resume 0)) σ' = σ'.
Proof.
  intros ack σ0 σ'.
  assert (H : handlers σ' !! 0 = Some Completed) by (vm_compute; done).
  assert (Hsent : sent σ' =
            [(0, load_response (VInt 1) true None); (0, ack);
             (0, stream_data "s1" (VInt 1)); (0, stream_data "s1" (VInt 2))])
    by (vm_compute; done).
  repeat split; try (vm_compute; done).
  - rewrite Hsent. by repeat constructor.
  - intros n. by apply run_Completed.
Qed.

(** ** Disconnection *)

(** C9, at an instance with two open streams, the producer of the first
    over with an exception and the producer of the second waiting at an
    [await].  On disconnection [stop] meets the first task, which is done:
    awaiting it raises its exception at once, and that exception, not
    being a [CancelledError], leaves [stop] and the connection handler.
    Nothing is cancelled and nothing is cleared: the stream map still holds
    both streams and the second producer is still pending; the instance
    stays registered. *)
Theorem disconnect_with_failed_producer_keeps_streams :
  let r := dispatch (disconnect "cam") half_relayed in
  (streams <$> heap half_relayed !! 0) = Some [("s1", 0); ("s2", 1)] ∧
  (t_state <$> tasks half_relayed !! 0) = Some (Failed "boom") ∧
  (task_done <$> tasks half_relayed !! 1) = Some false ∧
  r.1 = Exc "boom" ∧
  (streams <$> heap r.2 !! 0) = Some [("s1", 0); ("s2", 1)] ∧
  (task_done <$> tasks r.2 !! 1) = Some false ∧
  plugins r.2 !! "cam" = Some 0 ∧
  connections r.2 !! "cam" = None.
Proof. vm_compute. done. Qed.

(** ** What the code does against the claims as they were written *)

(** Against C1: [execute] on the generator function [count] of a loaded
    plugin is no error; its result is the generator object. *)
Lemma execute_on_generator_function_is_no_error :
  isgeneratorfunction count = true ∧
  (PluginManager.execute_plugin_function "cam" "count" [] [] loaded).1 =
    Ok {| PluginManager.success := None;
          PluginManager.result :=
            Some (VGenerator (GYield (VInt 1) (GYield (VInt 2)
                                (GYield (VInt 3) GReturn))));
          PluginManager.error := None |}.
Proof. vm_compute. done. Qed.

(** At the transport the answer of such an [execute] cannot be encoded:
    [send_json] raises, nothing is sent and the connection handler drops
    the connection. *)
Lemma execute_response_with_generator_is_not_sent :
  let σ' := step loaded (receive 0 "cam" (request "execute" camera "count" ""))
  in sent σ' = sent loaded ∧ connections σ' !! "cam" = None.
Proof. vm_compute. done. Qed.

(** Against C3: a generator that yields 1, [None], 2 has only the 1
    relayed; its [None] is taken for the end of the stream. *)
Lemma yielded_None_is_taken_for_the_end :
  let σ' := run (receive 0 "cam" (request "stream_start" camera "sparse" "s1")
                 :: replicate 5 (resume 0)) loaded in
  call sparse [] [] =
    Ok (VGenerator (GYield (VInt 1) (GYield VNone (GYield (VInt 2) GReturn)))) ∧
  sent σ' = sent loaded ++ [(0, stream_start_response (VInt 1) "s1" true);
                            (0, stream_data "s1" (VInt 1))] ∧
  handlers σ' !! 0 = Some Completed.
Proof. vm_compute. done. Qed.

(** Against C4: loading again under an id whose instance has a stream
    open leaves that stream registered with the old instance and its
    producer suspended, and runs no [cleanup], which the module has. *)
Lemma reload_leaves_old_instance_running :
  let σ' := step streaming (receive 0 "cam" (request "load" camera "" "")) in
  plugins streaming !! "cam" = Some 0 ∧
  plugins σ' !! "cam" = Some 1 ∧
  (streams <$> heap σ' !! 0) = Some [("s1", 0)] ∧
  (task_done <$> tasks σ' !! 0) = Some false ∧
  is_Some (camera_module !! "cleanup") ∧
  pool σ' = [].
Proof. vm_compute. repeat split; eauto. Qed.

(** Against C8: a generator function that keeps the thread for 11 time
    units before its only item.  Through the first 10 time units of the
    pull of the consumer the producer neither yields nor pushes the end
    marker, and the stream is not ended for that: the timer of the pull
    cannot fire while the thread is kept, the item is in the queue when
    the loop runs again, and it is relayed as a [stream_data] event. *)
Lemma blocking_producer_is_not_timed_out :
  let g := GBlock 11 (GYield (VInt 1) GReturn) in
  let σ' := run (receive 0 "cam" (request "stream_start" slow_code "slow" "s1")
                 :: replicate 3 (resume 0)) drowsy in
  call slow [] [] = Ok (VGenerator g) ∧
  STREAM_TIMEOUT < silence g ∧
  sent σ' = sent drowsy ++ [(0, stream_start_response (VInt 1) "s1" true);
                            (0, stream_data "s1" (VInt 1))] ∧
  handlers σ' !! 0 = Some Completed.
Proof.
  split; [done|]. split; [unfold STREAM_TIMEOUT; simpl; lia|].
  split; vm_compute; done.
Qed.

(** Against C6: a [stream_start] for a plugin id with no instance is
    acknowledged as successful. *)
Lemma stream_start_unknown_plugin_is_acknowledged :
  plugins connected !! "cam" = None ∧
  handle_plugin_message "cam" (request "stream_start" camera "count" "s1")
    connected =
  (Ok (Some (stream_start_response (VInt 1) "s1" true)),
   set_handlers {[ 0 := Created "cam" "s1" "count" [] [] ]} connected).
Proof. vm_compute. done. Qed.

(** ** The theorems at the sample runs *)

Lemma execute_unknown_plugin_returns_error_witness :
  let data := request "execute" camera "count" "" in
  let response :=
    execute_response (VInt 1) VNone (Some "Plugin cam not loaded") in
  handle_plugin_message "cam" data connected = (Ok (Some response), connected) ∧
  receive_json 0 "cam" data connected =
    (Ok (), set_sent (sent connected ++ [(0, response)]) connected).
Proof.
  apply (execute_unknown_plugin_returns_error connected 0 "cam"
           (request "execute" camera "count" "")); vm_compute; reflexivity.
Defined.

Lemma load_failure_keeps_registry_witness :
  let r := (PluginManager.load_plugin "cam" unplugged [] streaming).1 in
  let σ' := (PluginManager.load_plugin "cam" unplugged [] streaming).2 in
  r = Ok {| PluginManager.success := Some false; PluginManager.result := None;
            PluginManager.error := Some "no camera" |} ∧
  plugins σ' = plugins streaming ∧
  (∀ self p, heap streaming !! self = Some p → heap σ' !! self = Some p) ∧
  tasks σ' = tasks streaming ∧ handlers σ' = handlers streaming ∧
  connections σ' = connections streaming ∧ sent σ' = sent streaming.
Proof.
  apply (load_failure_keeps_registry streaming "cam" unplugged [] "no camera").
  right. exists (<["initialize" := no_camera]> camera_module), no_camera.
  repeat split; vm_compute; reflexivity.
Defined.

Lemma load_overwrites_without_unloading_witness :
  let r := (PluginManager.load_plugin "cam" camera [] streaming).1 in
  let σ' := (PluginManager.load_plugin "cam" camera [] streaming).2 in
  r = Ok {| PluginManager.success := Some true; PluginManager.result := None;
            PluginManager.error := None |} ∧
  plugins σ' = <["cam" := fresh (dom (heap streaming))]> (plugins streaming) ∧
  (∀ self, plugins σ' !! "cam" = Some self →
           self = fresh (dom (heap streaming))) ∧
  heap σ' !! fresh (dom (heap streaming)) =
    Some {| plugin_id := "cam"; module := Some camera_module; streams := [] |} ∧
  (∀ old p, heap streaming !! old = Some p → heap σ' !! old = Some p) ∧
  tasks σ' = tasks streaming ∧
  pool σ' = pool streaming ++ match camera_module !! "initialize" with
                              | Some initialize =>
                                  [(fresh (dom (heap streaming)),
                                    f_name initialize)]
                              | None => []
                              end.
Proof.
  apply (load_overwrites_without_unloading streaming "cam" camera []
           camera_module).
  - reflexivity.
  - intros initialize H. vm_compute in H. discriminate H.
Defined.

Lemma execute_makes_no_shape_check_witness :
  let g := GYield (VInt 1) (GYield (VInt 2) (GYield (VInt 3) GReturn)) in
  PluginManager.execute_plugin_function "cam" "count" [] [] loaded =
    (Ok {| PluginManager.success := None; PluginManager.result := Some (VGenerator g);
           PluginManager.error := None |},
     set_pool (pool loaded ++ [(0, "count")]) loaded) ∧
  ((∃ g', VGenerator g = VGenerator g') ∨
   (∃ g', VGenerator g = VAsyncGenerator g')).
Proof.
  apply (execute_makes_no_shape_check loaded "cam" 0
           {| plugin_id := "cam"; module := Some camera_module;
              streams := [] |}
           camera_module "count" count [] []);
    try (vm_compute; reflexivity).
  left. reflexivity.
Defined.

Lemma stream_start_acknowledged_then_stream_error_witness :
  let data := request "stream_start" camera "count" "s1" in
  let h := fresh (dom (handlers connected)) in
  let σ' := run [receive 0 "cam" data; resume h] connected in
  sent σ' =
    sent connected ++
      [(0, stream_start_response (VInt 1) "s1" true);
       (0, stream_error "s1" ("Plugin " +:+ "cam" +:+ " not loaded"))] ∧
  handlers σ' !! h = Some Completed ∧
  plugins σ' = plugins connected ∧ heap σ' = heap connected ∧
  tasks σ' = tasks connected.
Proof.
  apply (stream_start_acknowledged_then_stream_error connected 0 "cam"
           (request "stream_start" camera "count" "s1")
           ("Plugin " +:+ "cam" +:+ " not loaded"));
    try (vm_compute; reflexivity).
  left. split; vm_compute; reflexivity.
Defined.

Lemma stream_of_three_items_in_order_witness :
  let data := request "stream_start" camera "count" "s1" in
  let h := fresh (dom (handlers loaded)) in
  let σ' := run (receive 0 "cam" data :: replicate 5 (resume h)) loaded in
  sent σ' =
    sent loaded ++ [(0, stream_start_response (VInt 1) "s1" true);
                    (0, stream_data "s1" (VInt 1));
                    (0, stream_data "s1" (VInt 2));
                    (0, stream_data "s1" (VInt 3))] ∧
  handlers σ' !! h = Some Completed ∧
  ∀ n, run (replicate n (resume h)) σ' = σ'.
Proof.
  apply (stream_of_three_items_in_order loaded 0 "cam" 0
           {| plugin_id := "cam"; module := Some camera_module;
              streams := [] |}
           camera_module (request "stream_start" camera "count" "s1") count
           (λ _ _, Ok (GYield (VInt 1) (GYield (VInt 2)
                         (GYield (VInt 3) GReturn)))));
    vm_compute; reflexivity.
Defined.

Lemma consumer_relays_all_but_None_witness :
  (is_None (VInt 1) = false →
   PluginInstance.stream_function_next 0 "s1" 0 half_relayed =
     (Ok (Some (VInt 1)),
      set_tasks (<[0 := {| t_state := Failed "boom";
                           t_queue := [VInt 2; VNone] |}]>
                   (tasks half_relayed)) half_relayed)) ∧
  (is_None (VInt 1) = true →
   let r := PluginInstance.stream_function_next 0 "s1" 0 half_relayed in
   r.1 = Ok None ∧
   heap r.2 =
     alter (λ p, set_streams (dict_remove "s1" (streams p)) p) 0
       (heap half_relayed)).
Proof.
  apply (consumer_relays_all_but_None half_relayed 0 "s1" 0 (Failed "boom")
           (VInt 1) [VInt 2; VNone]).
  vm_compute; reflexivity.
Defined.


(** ** Disconnection: what holds in every state *)

Lemma cancel_state σ task :
  ∃ tk, (cancel task σ).2 = set_tasks tk σ ∧
        (∀ other, other ≠ task → tk !! other = tasks σ !! other) ∧
        tk !! task = Some (cancel_and_await (task_at σ task)).1.
Proof.
  exists (<[task := (cancel_and_await (task_at σ task)).1]> (tasks σ)).
  split; [|split].
  - unfold cancel, get_task, put_task, gets, modify, raise, mbind, M_bind,
      mret, M_ret. simpl.
    by destruct ((cancel_and_await (task_at σ task)).2).
  - intros other Hne. by rewrite lookup_insert_ne.
  - by rewrite lookup_insert_eq.
Qed.

Lemma cancel_each_state ts : ∀ σ,
  ∃ tk, (PluginInstance.cancel_each ts σ).2 = set_tasks tk σ.
Proof.
  induction ts as [|task ts IH]; intros σ; simpl.
  - exists (tasks σ). by destruct σ.
  - destruct (cancel_state σ task) as (tk & Hσ & _).
    unfold mbind, M_bind.
    destruct (cancel task σ) as [[[]|e] σ1] eqn:Hc; simpl in Hσ; subst σ1.
    + destruct (IH (set_tasks tk σ)) as [tk' ->]. exists tk'. by destruct σ.
    + by exists tk.
Qed.

(** Whatever the streams of the instance are, a disconnection leaves the
    registry map as it is and changes no instance but in its stream map:
    the instance stays registered and loaded. *)
Lemma disconnect_keeps_instances_loaded σ pid :
  let σ' := step σ (disconnect pid) in
  plugins σ' = plugins σ ∧
  connections σ' = delete pid (connections σ) ∧
  (∀ self, module <$> heap σ' !! self = module <$> heap σ !! self) ∧
  (∀ other, plugins σ !! pid ≠ Some other →
            heap σ' !! other = heap σ !! other).
Proof.
  unfold step, dispatch, WebSocketDisconnect, PluginManager.stop_plugin,
    PluginInstance.stop, deref, update, gets, modify, mbind, M_bind, mret, M_ret.
  destruct σ as [pl hp tk hd cn sn dk po]; simpl.
  destruct (pl !! pid) as [self|] eqn:Hr; simpl; [|done].
  match goal with |- context [PluginInstance.cancel_each ?ts ?s] =>
    destruct (cancel_each_state ts s) as [tk' Hs];
    destruct (PluginInstance.cancel_each ts s) as [[[]|e] σ1] end.
  all: simpl in Hs; subst σ1; simpl; repeat split; try done.
  - intros other. rewrite lookup_alter.
    case_decide; [subst|done]. by destruct (hp !! other).
  - intros other Hne. rewrite lookup_alter_ne; [done|congruence].
Qed.

Lemma cancel_and_await_done t : task_done (cancel_and_await t).1 = true.
Proof. unfold task_done, cancel_and_await. by destruct t as [[] q]. Qed.

Lemma cancel_and_await_not_Failed t e :
  (∀ e', t_state t ≠ Failed e') → t_state (cancel_and_await t).1 ≠ Failed e.
Proof.
  unfold cancel_and_await. by destruct t as [[] q].
Qed.

Lemma cancel_each_not_Failed ts : ∀ σ,
  (∀ task e, task ∈ ts → t_state (task_at σ task) ≠ Failed e) →
  ∃ tk, PluginInstance.cancel_each ts σ = (Ok (), set_tasks tk σ) ∧
        (∀ task, task ∈ ts → ∃ t, tk !! task = Some t ∧ task_done t = true) ∧
        (∀ task, task ∉ ts → tk !! task = tasks σ !! task).
Proof.
  induction ts as [|task ts IH]; intros σ Hok; simpl.
  - exists (tasks σ). split; [by destruct σ|]. split; [|done].
    intros task H. by apply not_elem_of_nil in H.
  - assert (Hc : cancel task σ =
      (Ok (), set_tasks (<[task := (cancel_and_await (task_at σ task)).1]>
                           (tasks σ)) σ)).
    { unfold cancel, get_task, put_task, gets, modify, raise, mbind, M_bind,
        mret, M_ret. simpl.
      pose proof (Hok task) as Hok'.
      unfold cancel_and_await.
      destruct (task_at σ task) as [[] q]; simpl in *; try done.
      destruct (Hok' e); [left|done]. }
    erewrite bind_Ok by exact Hc.
    destruct (IH (set_tasks (<[task := (cancel_and_await (task_at σ task)).1]>
                               (tasks σ)) σ)) as (tk & Hrun & Hdone & Hrest).
    { intros b e Hb. unfold task_at. simpl.
      destruct (decide (b = task)) as [->|Hne].
      - rewrite lookup_insert_eq. simpl. apply cancel_and_await_not_Failed.
        intros e'. apply Hok. left.
      - rewrite lookup_insert_ne by done. apply (Hok b e). by right. }
    exists tk. split; [rewrite Hrun; by destruct σ|]. split.
    + intros b Hb. destruct (decide (b ∈ ts)) as [Hin|Hnin]; [by apply Hdone|].
      apply elem_of_cons in Hb as [->|Hb]; [|done].
      rewrite Hrest by done. simpl. rewrite lookup_insert_eq.
      eexists; split; [done|]. apply cancel_and_await_done.
    + intros b Hb. apply not_elem_of_cons in Hb as [Hne Hb].
      rewrite Hrest by done. simpl. by rewrite lookup_insert_ne.
Qed.

(** * More of the code *)

(** ** [execute] on the other kinds of entry point *)

Lemma handle_execute_message σ pid data r σ' :
  m_type data = "execute" →
  PluginManager.execute_plugin_function pid (function data) (args data)
    (kwargs_ data) σ = (Ok r, σ') →
  handle_plugin_message pid data σ =
    (Ok (Some (execute_response (m_id data)
                 (default VNone (PluginManager.result r))
                 (PluginManager.error r))), σ').
Proof.
  intros Htype Hr. unfold handle_plugin_message. rewrite Htype.
  rewrite decide_False by done. rewrite decide_True by done.
  apply try_except_Ok. by erewrite bind_Ok.
Qed.

Lemma execute_plain_reply σ pid self p m fn args kw func b :
  plugins σ !! pid = Some self →
  heap σ !! self = Some p →
  module p = Some m →
  m !! fn = Some func →
  f_body func = PlainFunction b →
  PluginManager.execute_plugin_function pid fn args kw σ =
    (Ok match b args kw with
        | Ok v => {| PluginManager.success := None;
                     PluginManager.result := Some v;
                     PluginManager.error := None |}
        | Exc e => {| PluginManager.success := None;
                      PluginManager.result := None;
                      PluginManager.error := Some e |}
        end,
     set_pool (pool σ ++ [(self, f_name func)]) σ).
Proof.
  intros Hreg Hself Hmod Hfn Hb.
  unfold PluginManager.execute_plugin_function.
  erewrite bind_Ok; last by (unfold gets; rewrite Hreg).
  unfold PluginInstance.execute_function,
    PluginInstance._run_in_executor, call, deref, instance_at,
    try_except, gets, modify, outcome_result, mbind, M_bind, mret, M_ret.
  rewrite Hself; simpl. rewrite Hmod; simpl. rewrite Hfn, Hb; simpl.
  by destruct (b args kw).
Qed.

(** An [execute] request on an entry point that is a plain function is
    answered with what the function returns as [result], or with the text
    of the exception it raises as [error]; the call goes to the worker pool
    and nothing else in the host changes. *)
Theorem execute_plain_function
    (σ : State) (pid : string) (self : nat) (p : plugin_instance)
    (m : gmap string pyfunc) (data : message) (func : pyfunc)
    (b : list value → kwargs → outcome value) :
  m_type data = "execute" →
  plugins σ !! pid = Some self →
  heap σ !! self = Some p →
  module p = Some m →
  m !! function data = Some func →
  f_body func = PlainFunction b →
  handle_plugin_message pid data σ =
    (Ok (Some match b (args data) (kwargs_ data) with
              | Ok v => execute_response (m_id data) v None
              | Exc e => execute_response (m_id data) VNone (Some e)
              end),
     set_pool (pool σ ++ [(self, f_name func)]) σ).
Proof.
  intros Htype Hreg Hself Hmod Hfn Hb.
  rewrite (handle_execute_message _ _ _ _ _ Htype
             (execute_plain_reply σ pid self p m (function data) (args data)
                (kwargs_ data) func b Hreg Hself Hmod Hfn Hb)).
  by destruct (b (args data) (kwargs_ data)).
Qed.

(** An [execute] request on an entry point that is a coroutine function is
    awaited on the event loop: the answer holds what the coroutine returns,
    or the text of what the call or the coroutine raises, the worker pool
    is not used and the host state is unchanged. *)
Theorem execute_coroutine_function
    (σ : State) (pid : string) (self : nat) (p : plugin_instance)
    (m : gmap string pyfunc) (data : message) (func : pyfunc)
    (b : list value → kwargs → outcome coroutine) :
  m_type data = "execute" →
  plugins σ !! pid = Some self →
  heap σ !! self = Some p →
  module p = Some m →
  m !! function data = Some func →
  f_body func = CoroutineFunction b →
  handle_plugin_message pid data σ =
    (Ok (Some match b (args data) (kwargs_ data) with
              | Ok {| co_result := Ok v |} =>
                  execute_response (m_id data) v None
              | Ok {| co_result := Exc e |} | Exc e =>
                  execute_response (m_id data) VNone (Some e)
              end),
     σ).
Proof.
  intros Htype Hreg Hself Hmod Hfn Hb.
  assert (He : PluginManager.execute_plugin_function pid (function data)
                 (args data) (kwargs_ data) σ =
    (Ok match b (args data) (kwargs_ data) with
        | Ok {| co_result := Ok v |} =>
            {| PluginManager.success := None;
               PluginManager.result := Some v;
               PluginManager.error := None |}
        | Ok {| co_result := Exc e |} | Exc e =>
            {| PluginManager.success := None;
               PluginManager.result := None;
               PluginManager.error := Some e |}
        end, σ)).
  { unfold PluginManager.execute_plugin_function.
    erewrite bind_Ok; last by (unfold gets; rewrite Hreg).
    unfold PluginInstance.execute_function, deref, instance_at,
      try_except, gets, modify, outcome_result, mbind, M_bind, mret, M_ret.
    rewrite Hself; simpl. rewrite Hmod; simpl. rewrite Hfn, Hb; simpl.
    by destruct (b (args data) (kwargs_ data)) as [[d [v|e]]|e]. }
  rewrite (handle_execute_message _ _ _ _ _ Htype He).
  by destruct (b (args data) (kwargs_ data)) as [[d [v|e]]|e].
Qed.

(** An [execute] request that names an entry point the loaded module does
    not have is answered with the error "Function ... not found in plugin",
    and the host state is unchanged. *)
Theorem execute_missing_function
    (σ : State) (pid : string) (self : nat) (data : message) :
  m_type data = "execute" →
  plugins σ !! pid = Some self →
  module (instance_at σ self) ≫= (.!! function data) = None →
  handle_plugin_message pid data σ =
    (Ok (Some (execute_response (m_id data) VNone
                 (Some ("Function " +:+ function data +:+
                        " not found in plugin")))), σ).
Proof.
  intros Htype Hreg Hfn.
  assert (He : PluginManager.execute_plugin_function pid (function data)
                 (args data) (kwargs_ data) σ =
    (Ok {| PluginManager.success := None; PluginManager.result := None;
           PluginManager.error :=
             Some ("Function " +:+ function data +:+
                   " not found in plugin") |}, σ)).
  { unfold PluginManager.execute_plugin_function.
    erewrite bind_Ok; last by (unfold gets; rewrite Hreg).
    unfold PluginInstance.execute_function, deref, try_except, raise, gets,
      mbind, M_bind, mret, M_ret.
    unfold mbind in Hfn. by rewrite Hfn. }
  by rewrite (handle_execute_message _ _ _ _ _ Htype He).
Qed.

(** ** The message handler as a whole *)



(** A message whose type is none of the five the handler knows is
    ignored by the connection handler: nothing is written to the
    connection and the host state is unchanged. *)
Theorem unknown_message_type_is_ignored
    (σ : State) (ws : nat) (pid : string) (data : message) :
  m_type data ∉ ["load"; "execute"; "stream_start"; "stream_stop"; "unload"] →
  dispatch (receive ws pid data) σ = (Ok (), σ).
Proof.
  intros Hn. rewrite !not_elem_of_cons in Hn.
  destruct Hn as (N1 & N2 & N3 & N4 & N5 & _).
  unfold dispatch, receive_json, handle_plugin_message, try_except, mbind,
    M_bind, mret, M_ret.
  by rewrite !decide_False by done.
Qed.

(** A received JSON value that is not an object ends the connection
    handler: the [AttributeError] of [handle_plugin_message] is caught by
    the last [except] clause of [websocket_endpoint], which removes the
    connection from the table; nothing is written, not even an error
    response, [stop_plugin] is not called, and the registry, the instances
    and their streams are as before. *)
Theorem non_object_message_drops_connection
    (σ : State) (ws : nat) (pid : string) (r : received) :
  (∀ data, r ≠ JObject data) →
  receive_any ws pid r σ =
    (Ok (), set_connections (delete pid (connections σ)) σ).
Proof.
  intros Hr. unfold receive_any, try_except, mbind, M_bind.
  destruct r as [data| | | | | |]; try done.
  by destruct (Hr data).
Qed.

(** When a plain function returns a value the JSON encoder rejects, the
    [execute] response cannot be written: nothing is sent, and the handler
    of the connection removes the connection from the table and ends,
    without stopping the streams of the plugin, which stays registered. *)
Theorem unencodable_result_drops_connection
    (σ : State) (ws : nat) (pid : string) (self : nat) (p : plugin_instance)
    (m : gmap string pyfunc) (data : message) (func : pyfunc)
    (b : list value → kwargs → outcome value) (v c : value) :
  m_type data = "execute" →
  plugins σ !! pid = Some self →
  heap σ !! self = Some p →
  module p = Some m →
  m !! function data = Some func →
  f_body func = PlainFunction b →
  b (args data) (kwargs_ data) = Ok v →
  json_serializable (m_id data) = true →
  json_culprit v = Some c →
  dispatch (receive ws pid data) σ =
    (Ok (),
     set_connections (delete pid (connections σ))
       (set_pool (pool σ ++ [(self, f_name func)]) σ)).
Proof.
  intros Htype Hreg Hself Hmod Hfn Hb Hcall Hid Hv.
  unfold dispatch, receive_json.
  erewrite try_except_Exc.
  2: { erewrite bind_Ok;
         last by (eapply handle_execute_message; [done|];
                  eapply execute_plain_reply).
       rewrite Hcall. unfold send_json. simpl.
       unfold json_serializable in Hid.
       destruct (json_culprit (m_id data)); [done|]. rewrite Hv.
       reflexivity. }
  done.
Qed.

(** ** Unload *)

Lemma cancel_each_result ts σ :
  ∃ tk, (∃ e, PluginInstance.cancel_each ts σ = (Exc e, set_tasks tk σ)) ∨
        PluginInstance.cancel_each ts σ = (Ok (), set_tasks tk σ).
Proof.
  destruct (cancel_each_state ts σ) as [tk Hs]. exists tk.
  destruct (PluginInstance.cancel_each ts σ) as [[[]|e] σ1];
    simpl in Hs; subst σ1; eauto.
Qed.

Lemma stop_result σ self :
  ∃ tk, (∃ e, PluginInstance.stop self σ = (Exc e, set_tasks tk σ)) ∨
        PluginInstance.stop self σ =
          (Ok (), set_heap (alter (set_streams []) self (heap σ))
                    (set_tasks tk σ)).
Proof.
  unfold PluginInstance.stop, deref, update, gets, modify, mbind, M_bind,
    mret, M_ret.
  destruct (cancel_each_result (dict_values (streams (instance_at σ self))) σ)
    as [tk [[e ->]| ->]]; exists tk; [by left; exists e|right].
  by destruct σ.
Qed.

Lemma unload_keeps_registry σ self :
  plugins (PluginInstance.unload self σ).2 = plugins σ.
Proof.
  unfold PluginInstance.unload, PluginInstance._run_in_executor, deref,
    gets, modify, outcome_result, mbind, M_bind, mret, M_ret.
  destruct (stop_result σ self) as [tk [[e ->]| ->]]; [by destruct σ|].
  match goal with |- context [match ?o with Some _ => _ | None => _ end] =>
    destruct o as [cleanup|] end; [|by destruct σ].
  destruct (call cleanup [] []); by destruct σ.
Qed.

Lemma unload_plugin_registry σ pid :
  plugins (PluginManager.unload_plugin pid σ).2 = delete pid (plugins σ).
Proof.
  unfold PluginManager.unload_plugin, gets, modify, mbind, M_bind, mret,
    M_ret.
  destruct (plugins σ !! pid) as [self|]; [|by destruct σ].
  match goal with |- context [PluginInstance.unload self ?s] =>
    pose proof (unload_keeps_registry s self) as Hk;
    destruct (PluginInstance.unload self s) as [[[]|e] σ1] end.
  all: simpl in *; rewrite Hk; by destruct σ.
Qed.

(** An [unload] request always takes the plugin id out of the registry,
    whatever the state of the instance: the entry is removed before the
    instance is stopped, so the id is absent from the list of loaded
    plugins even when stopping its streams or its [cleanup] raises and the
    request is answered with an error; the other ids stay registered. *)
Theorem unload_always_unregisters
    (σ : State) (pid : string) (data : message) :
  m_type data = "unload" →
  ∃ w σ', handle_plugin_message pid data σ = (Ok (Some w), σ') ∧
    (w = unload_response (m_id data) true ∨
     ∃ e, w = error_response (m_id data) e) ∧
    plugins σ' = delete pid (plugins σ) ∧
    pid ∉ PluginManager.get_loaded_plugins σ'.
Proof.
  intros Htype.
  assert (Hgone : ∀ σ', plugins σ' = delete pid (plugins σ) →
                        pid ∉ PluginManager.get_loaded_plugins σ').
  { intros σ' Hp Hin. unfold PluginManager.get_loaded_plugins in Hin.
    apply list_elem_of_fmap in Hin as [[k x] [-> Hkx]].
    apply elem_of_map_to_list in Hkx. rewrite Hp in Hkx. simpl in Hkx.
    by rewrite lookup_delete_eq in Hkx. }
  pose proof (unload_plugin_registry σ pid) as Hreg.
  unfold handle_plugin_message, try_except. rewrite Htype.
  do 4 (rewrite decide_False by done). rewrite decide_True by done.
  unfold mbind at 1, M_bind, mret, M_ret.
  destruct (PluginManager.unload_plugin pid σ) as [[[]|e] σ'];
    simpl in Hreg; eexists _, σ'; (split; [done|]);
    (split; [eauto|split; [done|by apply Hgone]]).
Qed.

Lemma cancel_settled σ task t :
  tasks σ !! task = Some t → settled t → cancel task σ = (Ok (), σ).
Proof.
  intros Ht Hs.
  unfold cancel, get_task, put_task, gets, modify, raise, task_at, mbind,
    M_bind, mret, M_ret. simpl. rewrite Ht. simpl.
  unfold cancel_and_await.
  destruct Hs as [-> | ->]; simpl; rewrite insert_id by done; by destruct σ.
Qed.


Lemma cancel_each_settled ts : ∀ σ,
  (∀ task, task ∈ ts → ∃ t, tasks σ !! task = Some t ∧ settled t) →
  PluginInstance.cancel_each ts σ = (Ok (), σ).
Proof.
  induction ts as [|task ts IH]; intros σ Hts; simpl; [done|].
  destruct (Hts task) as (t & Ht & Hs); [by left|].
  erewrite bind_Ok by (by eapply cancel_settled).
  apply IH. intros b Hb. apply Hts. by right.
Qed.

Lemma stop_settled σ self p :
  heap σ !! self = Some p →
  (∀ task, task ∈ dict_values (streams p) →
           ∃ t, tasks σ !! task = Some t ∧ settled t) →
  PluginInstance.stop self σ =
    (Ok (), set_heap (<[self := set_streams [] p]> (heap σ)) σ).
Proof.
  intros Hs Hts.
  unfold PluginInstance.stop, deref, update, gets, modify, mbind, M_bind,
    mret, M_ret, instance_at.
  rewrite Hs; simpl. rewrite (cancel_each_settled _ σ Hts).
  do 2 f_equal. apply map_eq. intros i. rewrite lookup_alter.
  case_decide; [subst; by rewrite Hs, lookup_insert_eq|].
  by rewrite lookup_insert_ne.
Qed.

(** [unload] of an instance whose producers are all over, none of them
    with an exception, as the producers of synchronous entry points are as
    soon as their streams have started, and as they all are when the map
    is empty.  [stop] then does not wait for any task: it runs in one turn
    of the loop, changes no task and empties the stream map.  The registry
    entry is removed first; the [cleanup] of the module, if it has one, is
    then run once on the worker pool, and what it raises leaves [unload],
    after the plugin is unregistered and its stream map emptied. *)
Theorem unload_clears_streams_then_cleans_up
    (σ : State) (pid : string) (self : nat) (p : plugin_instance)
    (m : gmap string pyfunc) :
  plugins σ !! pid = Some self →
  heap σ !! self = Some p →
  module p = Some m →
  (∀ task, task ∈ dict_values (streams p) →
           ∃ t, tasks σ !! task = Some t ∧ settled t) →
  let r := PluginManager.unload_plugin pid σ in
  r.1 = match m !! "cleanup" with
        | Some cleanup =>
            match call cleanup [] [] with Ok _ => Ok () | Exc e => Exc e end
        | None => Ok ()
        end ∧
  plugins r.2 = delete pid (plugins σ) ∧
  heap r.2 = <[self := set_streams [] p]> (heap σ) ∧
  tasks r.2 = tasks σ ∧
  pool r.2 = pool σ ++ match m !! "cleanup" with
                       | Some cleanup => [(self, f_name cleanup)]
                       | None => []
                       end.
Proof.
  intros Hreg Hs Hm Hts r. subst r.
  unfold PluginManager.unload_plugin, PluginInstance.unload,
    PluginInstance._run_in_executor, deref, gets, modify, outcome_result,
    mbind, M_bind, mret, M_ret.
  rewrite Hreg. simpl.
  rewrite (stop_settled (set_plugins (delete pid (plugins σ)) σ) self p);
    [|by destruct σ|by destruct σ].
  unfold instance_at. simpl. rewrite lookup_insert_eq. simpl. rewrite Hm.
  simpl.
  destruct (m !! "cleanup") as [cleanup|]; simpl.
  - destruct (call cleanup [] []); simpl; repeat split; done.
  - rewrite app_nil_r. repeat split; done.
Qed.



(** A disconnection of a plugin whose producers are all over, none of
    them with an exception: [stop] waits for no task, so the handler of
    the connection ends in the turn in which it began, without an
    exception.  The connection is removed from the table, the stream map
    of the instance is emptied, and nothing else changes: no task, the
    registry and the module of the instance are as before, and the relays
    of those streams are left to end by themselves. *)
Theorem disconnect_clears_settled_streams
    (σ : State) (pid : string) (self : nat) (p : plugin_instance) :
  plugins σ !! pid = Some self →
  heap σ !! self = Some p →
  (∀ task, task ∈ dict_values (streams p) →
           ∃ t, tasks σ !! task = Some t ∧ settled t) →
  dispatch (disconnect pid) σ =
    (Ok (),
     set_heap (<[self := set_streams [] p]> (heap σ))
       (set_connections (delete pid (connections σ)) σ)).
Proof.
  intros Hreg Hs Hts.
  unfold dispatch, WebSocketDisconnect, PluginManager.stop_plugin, gets,
    modify, mbind, M_bind, mret, M_ret.
  simpl. replace (plugins (set_connections (delete pid (connections σ)) σ))
    with (plugins σ) by by destruct σ.
  rewrite Hreg.
  rewrite (stop_settled _ self p); [by destruct σ|by destruct σ|by destruct σ].
Qed.

(** ** The relay and the connection *)



(** A relay task that starts when the connection of the plugin is already
    gone returns at once: no producer is started, no stream is registered
    and nothing is written. *)
Theorem relay_does_not_start_without_connection
    (σ : State) (h : nat) (pid sid fn : string)
    (args : list value) (kw : kwargs) :
  handlers σ !! h = Some (Created pid sid fn args kw) →
  connections σ !! pid = None →
  step σ (resume h) = set_handlers (<[h := Completed]> (handlers σ)) σ.
Proof.
  intros Hh Hc. unfold step, dispatch, resume_handler. rewrite Hh. simpl.
  unfold handle_stream_start, gets, mbind, M_bind, mret, M_ret.
  by rewrite Hc.
Qed.



(** ** Streaming through the awaits of the producer *)

Lemma drive_pending c : ∀ q,
  pending (drive c q) = q ++ puts c ∧
  (prompt 0 c → prompt_task (drive c q)).
Proof.
  induction c as [|v k IH|d k IH|e]; intros q; simpl.
  - unfold pending; simpl. by rewrite !app_nil_r.
  - destruct (IH (q ++ [v])) as [-> Hp]. by rewrite <- app_assoc.
  - done.
  - unfold pending; simpl. by rewrite !app_nil_r.
Qed.

Lemma wait_for_put_prompt c : ∀ w v rest,
  prompt w c →
  puts c = v :: rest →
  ∃ t', wait_for_put c w = (Got v, t') ∧ pending t' = rest ∧ prompt_task t'.
Proof.
  induction c as [|v0 k IH|d k IH|e]; intros w v rest Hp Hputs; simpl in *;
    try done.
  - injection Hputs as -> Hk. exists (drive k []).
    destruct (drive_pending k []) as [Hpend Hpr].
    rewrite Hpend. simpl. split; [done|]. split; [done|by apply Hpr].
  - destruct Hp as [Hlt Hp]. case_decide; [lia|]. by apply IH.
Qed.

Lemma queue_get_prompt t v rest :
  prompt_task t →
  pending t = v :: rest →
  ∃ t', queue_get t = (Got v, t') ∧ pending t' = rest ∧ prompt_task t'.
Proof.
  destruct t as [st [|v0 q]]; unfold prompt_task, pending, queue_get; simpl.
  - destruct st as [d k| | |]; try done.
    intros Hp Hputs. by apply (wait_for_put_prompt (CAwait d k) 0).
  - intros Hp Hputs. injection Hputs as -> <-. by eexists.
Qed.

Lemma handle_stream_next_Got σ pid sid ws ws' self task t t' v :
  tasks σ !! task = Some t →
  queue_get t = (Got v, t') →
  is_None v = false →
  json_serializable v = true →
  connections σ !! pid = Some ws' →
  handle_stream_next pid sid ws self task σ =
    (Ok (Relaying pid sid ws self task),
     set_sent (sent σ ++ [(ws, stream_data sid v)])
       (set_tasks (<[task := t']> (tasks σ)) σ)).
Proof.
  intros Ht Hq Hv Hj Hc. unfold json_serializable in Hj.
  unfold_host. destruct σ as [pl hp tk hd cn sn dk po]; simpl in *.
  rewrite Ht; simpl. rewrite Hq; simpl. rewrite Hv; simpl. rewrite Hc; simpl.
  destruct (json_culprit v); [done|]. done.
Qed.

Lemma handle_stream_next_None σ pid sid ws self task t t' :
  tasks σ !! task = Some t →
  queue_get t = (Got VNone, t') →
  handle_stream_next pid sid ws self task σ =
    (Ok Completed,
     set_heap (alter (λ p, set_streams (dict_remove sid (streams p)) p) self
                 (heap σ))
       (set_tasks
          (<[task := if task_done t' then t' else (cancel_and_await t').1]>
             (tasks σ)) σ)).
Proof.
  intros Ht Hq. unfold_host.
  destruct σ as [pl hp tk hd cn sn dk po]; simpl in *.
  rewrite Ht; simpl. rewrite Hq; simpl. rewrite lookup_insert_eq; simpl.
  unfold task_done, cancel_and_await.
  destruct t' as [[] q1]; simpl; rewrite ?lookup_insert_eq; simpl.
  all: by rewrite ?insert_insert_eq.
Qed.

(** The relay of a producer that keeps below the timeout: every item up
    to the first end marker goes out, in order. *)
Lemma relay_prompt h pid sid ws ws' self task vs rest : ∀ σ t,
  handlers σ !! h = Some (Relaying pid sid ws self task) →
  tasks σ !! task = Some t →
  prompt_task t →
  pending t = vs ++ VNone :: rest →
  Forall (λ v, is_None v = false ∧ json_serializable v = true) vs →
  connections σ !! pid = Some ws' →
  let σ' := run (replicate (S (length vs)) (resume h)) σ in
  sent σ' = sent σ ++ ((λ v, (ws, stream_data sid v)) <$> vs) ∧
  handlers σ' !! h = Some Completed ∧
  heap σ' =
    alter (λ p, set_streams (dict_remove sid (streams p)) p) self (heap σ) ∧
  task_done (task_at σ' task) = true ∧
  plugins σ' = plugins σ ∧ connections σ' = connections σ.
Proof.
  induction vs as [|v vs IH]; intros σ t Hh Ht Hp Hpend Hvs Hc.
  - destruct (queue_get_prompt t VNone rest Hp Hpend) as (t' & Hq & _ & _).
    simpl. unfold run; simpl.
    erewrite resume_Relaying; [|done|by eapply handle_stream_next_None].
    destruct σ; simpl. rewrite app_nil_r, !lookup_insert_eq.
    repeat split; try done. unfold task_at; simpl.
    rewrite lookup_insert_eq; simpl.
    destruct (task_done t') eqn:Hd; [done|apply cancel_and_await_done].
  - apply Forall_cons in Hvs as [[Hv Hj] Hvs].
    destruct (queue_get_prompt t v (vs ++ VNone :: rest) Hp Hpend)
      as (t' & Hq & Hpend' & Hp').
    intros σ'. subst σ'.
    change (run (replicate (S (length (v :: vs))) (resume h)) σ)
      with (run (replicate (S (length vs)) (resume h)) (step σ (resume h))).
    erewrite resume_Relaying; [|done|by eapply handle_stream_next_Got].
    match goal with |- context [run (replicate _ _) ?s] =>
      destruct (IH s t') as (Hs & Hh' & Hheap & Hdone & Hpl & Hcn) end;
      [| |exact Hp'|exact Hpend'|exact Hvs| |].
    + destruct σ; simpl. by rewrite lookup_insert_eq.
    + destruct σ; simpl. by rewrite lookup_insert_eq.
    + by destruct σ.
    + rewrite Hs, Hh', Hheap, Hdone, Hpl, Hcn.
      destruct σ; simpl. rewrite <- app_assoc. done.
Qed.

Lemma puts_finally c : puts (finally_put_None c) = puts c ++ [VNone].
Proof. induction c as [|v k IH|d k IH|e]; simpl; by rewrite ?IH. Qed.

Lemma prompt_finally c : ∀ w, prompt w c → prompt w (finally_put_None c).
Proof.
  induction c as [|v k IH|d k IH|e]; intros w; simpl; try done.
  - apply IH.
  - intros [Hlt Hp]. split; [done|by apply IH].
Qed.

Lemma puts_put_each_async g : puts (put_each_async g) = async_yields g.
Proof. induction g as [|v k IH|d k IH|e]; simpl; by rewrite ?IH. Qed.

Lemma prompt_put_each_async g : ∀ w,
  unhurried w g → prompt w (put_each_async g).
Proof.
  induction g as [|v k IH|d k IH|e]; intros w; simpl; try done.
  - apply IH.
  - intros [Hlt Hp]. split; [done|by apply IH].
Qed.

(** The relay of a stream from its start, for a producer coroutine that
    keeps below the timeout. *)
Lemma relay_prompt_function σ h pid sid fn args kw ws self p m func vs :
  handlers σ !! h = Some (Created pid sid fn args kw) →
  connections σ !! pid = Some ws →
  plugins σ !! pid = Some self →
  heap σ !! self = Some p →
  module p = Some m →
  m !! fn = Some func →
  prompt 0 (_run_streaming_function func args kw) →
  (∃ rest, puts (_run_streaming_function func args kw) = vs ++ VNone :: rest) →
  Forall (λ v, is_None v = false ∧ json_serializable v = true) vs →
  let task := fresh (dom (tasks σ)) in
  let σ' := run (replicate (2 + length vs) (resume h)) σ in
  sent σ' = sent σ ++ ((λ v, (ws, stream_data sid v)) <$> vs) ∧
  handlers σ' !! h = Some Completed ∧
  heap σ' !! self =
    Some (set_streams (dict_remove sid (dict_set sid task (streams p))) p) ∧
  task_done (task_at σ' task) = true ∧
  plugins σ' = plugins σ.
Proof.
  intros Hh Hc Hr Hs Hm Hf Hp [rest Hputs] Hvs task σ'. subst σ' task.
  change (run (replicate (2 + length vs) (resume h)) σ)
    with (run (replicate (S (length vs)) (resume h)) (step σ (resume h))).
  erewrite resume_Created; [|done|by eapply handle_stream_start_loaded].
  destruct (drive_pending (_run_streaming_function func args kw) [])
    as [Hpend Hpr].
  match goal with |- context [run (replicate _ _) ?s] =>
    destruct (relay_prompt h pid sid ws ws self (fresh (dom (tasks σ)))
                vs rest s (drive (_run_streaming_function func args kw) []))
      as (Hsent & Hh' & Hheap & Hdone & Hpl & _) end.
  - destruct σ; simpl. by rewrite lookup_insert_eq.
  - destruct σ; simpl. by rewrite lookup_insert_eq.
  - by apply Hpr.
  - by rewrite Hpend.
  - done.
  - by destruct σ.
  - rewrite Hsent, Hh', Hheap, Hdone, Hpl.
    destruct σ; simpl in *. repeat split; try done.
    rewrite !lookup_alter_eq, Hs. done.
Qed.

(** ** Streams of the four kinds of entry point *)

(** A stream over an async generator function whose steps each come less
    than 10 time units after the one before: after the acknowledgement,
    every value it yields goes out as a [stream_data] event, in the order of
    the generator and through its awaits, whatever way the generator ends;
    then the relay is over, the stream id is removed and the producer is
    done. *)
Theorem async_generator_stream_in_order
    (σ : State) (ws : nat) (pid : string) (self : nat) (p : plugin_instance)
    (m : gmap string pyfunc) (data : message) (func : pyfunc)
    (b : list value → kwargs → outcome async_generator)
    (g : async_generator) :
  m_type data = "stream_start" →
  json_serializable (m_id data) = true →
  connections σ !! pid = Some ws →
  plugins σ !! pid = Some self →
  heap σ !! self = Some p →
  module p = Some m →
  m !! function data = Some func →
  f_body func = AsyncGeneratorFunction b →
  b (args data) (kwargs_ data) = Ok g →
  unhurried 0 g →
  Forall (λ v, is_None v = false ∧ json_serializable v = true)
    (async_yields g) →
  let h := fresh (dom (handlers σ)) in
  let task := fresh (dom (tasks σ)) in
  let n := 2 + length (async_yields g) in
  let σ' := run (receive ws pid data :: replicate n (resume h)) σ in
  sent σ' =
    sent σ ++
      (ws, stream_start_response (m_id data) (streamId data) true) ::
      ((λ v, (ws, stream_data (streamId data) v)) <$> async_yields g) ∧
  handlers σ' !! h = Some Completed ∧
  heap σ' !! self =
    Some (set_streams
            (dict_remove (streamId data)
               (dict_set (streamId data) task (streams p))) p) ∧
  task_done (task_at σ' task) = true.
Proof.
  intros Htype Hid Hc Hr Hs Hm Hf Hb Hg Hgaps Hvs h task n σ'. subst σ' n.
  change (run (receive ws pid data ::
               replicate (2 + length (async_yields g)) (resume h)) σ)
    with (run (replicate (2 + length (async_yields g)) (resume h))
            (step σ (receive ws pid data))).
  rewrite receive_stream_start by done.
  assert (Hrun : _run_streaming_function func (args data) (kwargs_ data) =
                 finally_put_None (put_each_async g)).
  { unfold _run_streaming_function. by rewrite Hb, Hg. }
  match goal with |- context [run (replicate _ _) ?s] =>
    destruct (relay_prompt_function s h pid (streamId data) (function data)
                (args data) (kwargs_ data) ws self p m func (async_yields g))
      as (Hsent & Hh' & Hheap & Hdone & _) end.
  - destruct σ; simpl. by rewrite lookup_insert_eq.
  - by destruct σ.
  - by destruct σ.
  - by destruct σ.
  - done.
  - done.
  - rewrite Hrun. by apply prompt_finally, prompt_put_each_async.
  - exists []. by rewrite Hrun, puts_finally, puts_put_each_async.
  - done.
  - subst h task. destruct σ; simpl in *.
    rewrite Hsent, Hh', Hheap, Hdone. rewrite <- app_assoc. done.
Qed.

(** From the request on: the acknowledgement, then the relay. *)
Lemma stream_request_relays σ ws pid self p m data func vs :
  m_type data = "stream_start" →
  json_serializable (m_id data) = true →
  connections σ !! pid = Some ws →
  plugins σ !! pid = Some self →
  heap σ !! self = Some p →
  module p = Some m →
  m !! function data = Some func →
  prompt 0 (_run_streaming_function func (args data) (kwargs_ data)) →
  (∃ rest, puts (_run_streaming_function func (args data) (kwargs_ data)) =
           vs ++ VNone :: rest) →
  Forall (λ v, is_None v = false ∧ json_serializable v = true) vs →
  let h := fresh (dom (handlers σ)) in
  let task := fresh (dom (tasks σ)) in
  let σ' := run (receive ws pid data :: replicate (2 + length vs) (resume h))
              σ in
  sent σ' =
    sent σ ++
      (ws, stream_start_response (m_id data) (streamId data) true) ::
      ((λ v, (ws, stream_data (streamId data) v)) <$> vs) ∧
  handlers σ' !! h = Some Completed ∧
  heap σ' !! self =
    Some (set_streams
            (dict_remove (streamId data)
               (dict_set (streamId data) task (streams p))) p) ∧
  task_done (task_at σ' task) = true.
Proof.
  intros Htype Hid Hc Hr Hs Hm Hf Hp Hputs Hvs h task σ'. subst σ'.
  change (run (receive ws pid data :: replicate (2 + length vs) (resume h)) σ)
    with (run (replicate (2 + length vs) (resume h))
            (step σ (receive ws pid data))).
  rewrite receive_stream_start by done.
  match goal with |- context [run (replicate _ _) ?s] =>
    destruct (relay_prompt_function s h pid (streamId data) (function data)
                (args data) (kwargs_ data) ws self p m func vs)
      as (Hsent & Hh' & Hheap & Hdone & _) end.
  - destruct σ; simpl. by rewrite lookup_insert_eq.
  - by destruct σ.
  - by destruct σ.
  - by destruct σ.
  - done.
  - done.
  - done.
  - done.
  - done.
  - subst h task. destruct σ; simpl in *.
    rewrite Hsent, Hh', Hheap, Hdone. rewrite <- app_assoc. done.
Qed.

Lemma puts_put_each_generator g : puts (put_each_generator g) = yields g.
Proof. induction g as [|v k IH|e|d k IH]; simpl; by rewrite ?IH. Qed.

Lemma prompt_put_each_generator g : prompt 0 (put_each_generator g).
Proof. by induction g. Qed.

Lemma puts_put_each xs : puts (put_each xs) = xs.
Proof. induction xs as [|x xs IH]; simpl; by rewrite ?IH. Qed.

Lemma prompt_put_each xs : prompt 0 (put_each xs).
Proof. by induction xs. Qed.

(** A stream over a generator function: after the acknowledgement, every
    value the generator yields goes out as a [stream_data] event, in the
    order of the generator and however many there are, and nothing else
    does, whether the generator returns or raises at its end; then the
    relay is over and the stream id is removed. *)
Theorem generator_stream_in_order
    (σ : State) (ws : nat) (pid : string) (self : nat) (p : plugin_instance)
    (m : gmap string pyfunc) (data : message) (func : pyfunc)
    (b : list value → kwargs → outcome generator) (g : generator) :
  m_type data = "stream_start" →
  json_serializable (m_id data) = true →
  connections σ !! pid = Some ws →
  plugins σ !! pid = Some self →
  heap σ !! self = Some p →
  module p = Some m →
  m !! function data = Some func →
  f_body func = GeneratorFunction b →
  b (args data) (kwargs_ data) = Ok g →
  Forall (λ v, is_None v = false ∧ json_serializable v = true) (yields g) →
  let h := fresh (dom (handlers σ)) in
  let task := fresh (dom (tasks σ)) in
  let n := 2 + length (yields g) in
  let σ' := run (receive ws pid data :: replicate n (resume h)) σ in
  sent σ' =
    sent σ ++
      (ws, stream_start_response (m_id data) (streamId data) true) ::
      ((λ v, (ws, stream_data (streamId data) v)) <$> yields g) ∧
  handlers σ' !! h = Some Completed ∧
  heap σ' !! self =
    Some (set_streams
            (dict_remove (streamId data)
               (dict_set (streamId data) task (streams p))) p) ∧
  task_done (task_at σ' task) = true.
Proof.
  intros Htype Hid Hc Hr Hs Hm Hf Hb Hg Hvs.
  assert (Hrun : _run_streaming_function func (args data) (kwargs_ data) =
                 finally_put_None (put_each_generator g)).
  { unfold _run_streaming_function. by rewrite Hb, Hg. }
  eapply stream_request_relays; try done.
  - rewrite Hrun. apply prompt_finally, prompt_put_each_generator.
  - exists []. by rewrite Hrun, puts_finally, puts_put_each_generator.
Qed.

(** A stream over a plain function that returns a list: the elements of
    the list go out one by one as [stream_data] events, in the order of the
    list, and then the stream ends. *)
Theorem list_result_is_streamed_by_element
    (σ : State) (ws : nat) (pid : string) (self : nat) (p : plugin_instance)
    (m : gmap string pyfunc) (data : message) (func : pyfunc)
    (b : list value → kwargs → outcome value) (xs : list value) :
  m_type data = "stream_start" →
  json_serializable (m_id data) = true →
  connections σ !! pid = Some ws →
  plugins σ !! pid = Some self →
  heap σ !! self = Some p →
  module p = Some m →
  m !! function data = Some func →
  f_body func = PlainFunction b →
  b (args data) (kwargs_ data) = Ok (VList xs) →
  Forall (λ v, is_None v = false ∧ json_serializable v = true) xs →
  let h := fresh (dom (handlers σ)) in
  let σ' := run (receive ws pid data :: replicate (2 + length xs) (resume h))
              σ in
  sent σ' =
    sent σ ++
      (ws, stream_start_response (m_id data) (streamId data) true) ::
      ((λ v, (ws, stream_data (streamId data) v)) <$> xs) ∧
  handlers σ' !! h = Some Completed.
Proof.
  intros Htype Hid Hc Hr Hs Hm Hf Hb Hres Hvs h σ'.
  assert (Hrun : _run_streaming_function func (args data) (kwargs_ data) =
                 finally_put_None (put_each xs)).
  { unfold _run_streaming_function. by rewrite Hb, Hres. }
  destruct (stream_request_relays σ ws pid self p m data func xs)
    as (Hsent & Hh & _); try done.
  - rewrite Hrun. apply prompt_finally, prompt_put_each.
  - exists []. by rewrite Hrun, puts_finally, puts_put_each.
Qed.

(** A stream over a plain function that returns a value with no
    [__iter__] (a number, [None], ...): the request is acknowledged and
    then nothing follows, neither the value nor an error.  The producer
    raises "Function ... did not return a generator", which stays in its
    task; the relay reads the end marker, removes the stream id and is
    over. *)
Theorem scalar_result_streams_nothing
    (σ : State) (ws : nat) (pid : string) (self : nat) (p : plugin_instance)
    (m : gmap string pyfunc) (data : message) (func : pyfunc)
    (b : list value → kwargs → outcome value) (v : value) :
  m_type data = "stream_start" →
  json_serializable (m_id data) = true →
  connections σ !! pid = Some ws →
  plugins σ !! pid = Some self →
  heap σ !! self = Some p →
  module p = Some m →
  m !! function data = Some func →
  f_body func = PlainFunction b →
  b (args data) (kwargs_ data) = Ok v →
  has_iter v = false →
  let h := fresh (dom (handlers σ)) in
  let task := fresh (dom (tasks σ)) in
  let σ' := run [receive ws pid data; resume h; resume h] σ in
  sent σ' =
    sent σ ++ [(ws, stream_start_response (m_id data) (streamId data) true)] ∧
  handlers σ' !! h = Some Completed ∧
  tasks σ' !! task =
    Some {| t_state := Failed ("Function " +:+ f_name func +:+
                               " did not return a generator");
            t_queue := [] |} ∧
  heap σ' !! self =
    Some (set_streams
            (dict_remove (streamId data)
               (dict_set (streamId data) task (streams p))) p).
Proof.
  intros Htype Hid Hc Hr Hs Hm Hf Hb Hres Hiter h task σ'. subst σ' h task.
  change (run [receive ws pid data; resume (fresh (dom (handlers σ)));
               resume (fresh (dom (handlers σ)))] σ)
    with (run (replicate (S (length (@nil value)))
                 (resume (fresh (dom (handlers σ)))))
            (step (step σ (receive ws pid data))
               (resume (fresh (dom (handlers σ)))))).
  rewrite receive_stream_start by done.
  erewrite resume_Created;
    [|by (destruct σ; simpl; apply lookup_insert_eq)
     |by (eapply handle_stream_start_loaded; destruct σ)].
  assert (Hrun : drive (_run_streaming_function func (args data)
                          (kwargs_ data)) [] =
    {| t_state := Failed ("Function " +:+ f_name func +:+
                          " did not return a generator");
       t_queue := [] ++ VNone :: [] |}).
  { unfold _run_streaming_function. by rewrite Hb, Hres, Hiter. }
  rewrite (relay_queue (fresh (dom (handlers σ))) pid (streamId data) ws ws
             self (fresh (dom (tasks σ)))
             (Failed ("Function " +:+ f_name func +:+
                      " did not return a generator")) [] []).
  - destruct σ; simpl in *. rewrite app_nil_r, !lookup_insert_eq.
    repeat split; try done.
    rewrite !lookup_alter_eq, Hs. done.
  - destruct σ; simpl. by rewrite lookup_insert_eq.
  - destruct σ; simpl in *. rewrite lookup_insert_eq. by rewrite Hrun.
  - done.
  - done.
  - by destruct σ.
Qed.

(** ** [stream_stop] *)

Lemma dict_remove_absent {V} (k : string) (d : list (string * V)) :
  dict_get k d = None → dict_remove k d = d.
Proof.
  induction d as [|[k' v] d IH]; simpl; [done|].
  case_decide; [done|]. intros Hd. by rewrite IH.
Qed.

Lemma handle_stream_stop_message σ pid data σ' :
  m_type data = "stream_stop" →
  PluginManager.stop_stream pid (streamId data) σ = (Ok (), σ') →
  handle_plugin_message pid data σ =
    (Ok (Some (stream_stop_response (m_id data) (streamId data) true)), σ').
Proof.
  intros Htype Hs. unfold handle_plugin_message. rewrite Htype.
  do 3 (rewrite decide_False by done). rewrite decide_True by done.
  apply try_except_Ok. by erewrite bind_Ok.
Qed.

(** A [stream_stop] request that names no registered plugin, or a stream
    id the instance does not have, is acknowledged with success=true all
    the same, and changes nothing. *)
Theorem stream_stop_of_unknown_stream_is_acknowledged
    (σ : State) (pid : string) (data : message) :
  m_type data = "stream_stop" →
  (plugins σ !! pid = None ∨
   ∃ self, plugins σ !! pid = Some self ∧
     dict_get (streamId data) (streams (instance_at σ self)) = None) →
  handle_plugin_message pid data σ =
    (Ok (Some (stream_stop_response (m_id data) (streamId data) true)), σ).
Proof.
  intros Htype Hun. apply handle_stream_stop_message; [done|].
  unfold PluginManager.stop_stream, PluginInstance.stop_stream, deref,
    update, gets, modify, mbind, M_bind, mret, M_ret.
  destruct Hun as [-> | (self & -> & Hget)]; [done|]. simpl.
  rewrite Hget. f_equal.
  assert (Hid : alter (λ p, set_streams (dict_remove (streamId data)
                                           (streams p)) p) self (heap σ)
                = heap σ).
  { apply alter_id. intros p Hp. unfold instance_at in Hget.
    rewrite Hp in Hget. simpl in Hget.
    rewrite dict_remove_absent by done. by destruct p. }
  rewrite Hid. by destruct σ.
Qed.

Lemma stop_stream_registered σ pid sid self p task t :
  plugins σ !! pid = Some self →
  heap σ !! self = Some p →
  dict_get sid (streams p) = Some task →
  tasks σ !! task = Some t →
  PluginManager.stop_stream pid sid σ =
    (match t_state t with Failed e => Exc e | _ => Ok () end,
     set_tasks
       (<[task := match t_state t with
                  | Suspended _ _ =>
                      {| t_state := Cancelled;
                         t_queue := t_queue t ++ [VNone] |}
                  | _ => t
                  end]> (tasks σ))
       (set_heap (<[self := set_streams (dict_remove sid (streams p)) p]>
                    (heap σ)) σ)).
Proof.
  intros Hr Hs Hget Ht.
  destruct σ as [pl hp tk hd cn sn dk po]; simpl in *.
  assert (Halter :
    alter (λ p, set_streams (dict_remove sid (streams p)) p) self hp =
    <[self := set_streams (dict_remove sid (streams p)) p]> hp).
  { apply map_eq. intros i. rewrite lookup_alter.
    case_decide; [subst; by rewrite Hs, lookup_insert_eq|].
    by rewrite lookup_insert_ne. }
  unfold PluginManager.stop_stream, PluginInstance.stop_stream, cancel,
    get_task, put_task, task_at, deref, update, instance_at, raise, gets,
    modify, mbind, M_bind, mret, M_ret.
  simpl. rewrite Hr. simpl. rewrite Hs. simpl. rewrite Hget. simpl.
  rewrite Halter, Ht. simpl. unfold cancel_and_await.
  by destruct (t_state t).
Qed.

(** A [stream_stop] request on a registered stream takes the stream id
    out of the stream map first and then cancels the producer: a producer
    that was suspended ends cancelled, with the end marker put behind what
    is queued, and one that was over is left as it was.  The request is
    acknowledged, unless the producer was over with an exception: then the
    answer is an [error] response with the text of that exception, the
    stream id being removed all the same. *)
Theorem stream_stop_cancels_producer
    (σ : State) (pid : string) (self : nat) (p : plugin_instance)
    (data : message) (task : nat) (t : Task) :
  m_type data = "stream_stop" →
  plugins σ !! pid = Some self →
  heap σ !! self = Some p →
  dict_get (streamId data) (streams p) = Some task →
  tasks σ !! task = Some t →
  handle_plugin_message pid data σ =
    (Ok (Some match t_state t with
              | Failed e => error_response (m_id data) e
              | _ => stream_stop_response (m_id data) (streamId data) true
              end),
     set_tasks
       (<[task := match t_state t with
                  | Suspended _ _ =>
                      {| t_state := Cancelled;
                         t_queue := t_queue t ++ [VNone] |}
                  | _ => t
                  end]> (tasks σ))
       (set_heap
          (<[self := set_streams (dict_remove (streamId data) (streams p)) p]>
             (heap σ)) σ)).
Proof.
  intros Htype Hr Hs Hget Ht.
  unfold handle_plugin_message, try_except. rewrite Htype.
  do 3 (rewrite decide_False by done). rewrite decide_True by done.
  unfold mbind at 1, M_bind, mret, M_ret.
  rewrite (stop_stream_registered σ pid (streamId data) self p task t)
    by done.
  by destruct (t_state t).
Qed.





(** ** Load, shutdown and the version check *)

(** [load] writes the code text under the plugin id before anything else:
    whether the load succeeds or fails, the text on disk under that id is
    then the one just received, and the files of the other plugins are
    untouched. *)
Theorem load_persists_code
    (σ : State) (pid : string) (code : code_unit) (reqs : list string) :
  disk (PluginManager.load_plugin pid code reqs σ).2 = <[pid := code]> (disk σ).
Proof.
  unfold PluginManager.load_plugin, PluginManager._install_requirements_global,
    PluginInstance.load, PluginInstance._run_in_executor, try_except, mbind,
    M_bind, mret, M_ret, gets, modify, deref, update, outcome_result,
    instance_at.
  destruct σ as [pl hp tk hd cn sn dk po]; simpl.
  destruct (bool_decide (reqs = [])); simpl.
  all: rewrite !lookup_insert_eq; simpl.
  all: destruct (exec_module code) as [m|e]; simpl; [|done].
  all: destruct (m !! "initialize") as [initialize|]; simpl; [|done].
  all: by destruct (call initialize [] []).
Qed.









(** The version check accepts exactly the versions from 3.8 on, on
    condition, for the minors 12 and above of major 3, that the
    installation of setuptools succeeds; that installation is run for those
    versions and no other, so not for a major above 3; the script exits
    with 0 exactly when the check accepts. *)
Theorem check_python_version_accepts (major minor : nat) (pip : bool) :
  let r := CheckPython.check_python_version major minor pip in
  (r.1 = true ↔
     ((3 < major)%nat ∨ (major = 3 ∧ (8 ≤ minor)%nat)) ∧
     (major = 3 → (12 ≤ minor)%nat → pip = true)) ∧
  (r.2 = true ↔ major = 3 ∧ (12 ≤ minor)%nat) ∧
  (CheckPython.main major minor pip = 0 ↔ r.1 = true).
Proof.
  unfold CheckPython.main, CheckPython.check_python_version.
  destruct (Nat.ltb_spec major 3), (Nat.eqb_spec major 3),
    (Nat.ltb_spec minor 8), (Nat.leb_spec 12 minor), pip; simpl.
  all: repeat split; try done; try lia.
  all: try (intros [? ?]; lia).
  all: try (intros [[?|[? ?]] ?]; first [lia | by eauto]).
  all: try (intros; lia).
Qed.

Lemma load_plugin_success σ pid code reqs m :
  exec_module code = Ok m →
  (∀ initialize, m !! "initialize" = Some initialize →
     ∃ v, call initialize [] [] = Ok v) →
  let new := fresh (dom (heap σ)) in
  ∃ σ', PluginManager.load_plugin pid code reqs σ =
          (Ok {| PluginManager.success := Some true;
                 PluginManager.result := None;
                 PluginManager.error := None |}, σ') ∧
        plugins σ' !! pid = Some new ∧
        heap σ' !! new =
          Some {| plugin_id := pid; module := Some m; streams := [] |}.
Proof.
  intros Hexec Hinit new. subst new.
  unfold PluginManager.load_plugin, PluginManager._install_requirements_global,
    PluginInstance.load, PluginInstance._run_in_executor, try_except, mbind,
    M_bind, mret, M_ret, gets, modify, deref, update, outcome_result,
    instance_at.
  destruct σ as [pl hp tk hd cn st dk po]; simpl in *.
  destruct (bool_decide (reqs = [])); simpl.
  all: rewrite !lookup_insert_eq; simpl; rewrite Hexec; simpl.
  all: destruct (m !! "initialize") as [initialize|] eqn:Hi; simpl.
  all: try (destruct (Hinit initialize eq_refl) as [v ->]; simpl).
  all: eexists; (split; [done|]); simpl.
  all: by rewrite lookup_insert_eq, lookup_alter_eq, lookup_insert_eq.
Qed.

(** The first [load] under an id, then [execute].  No [main.py] is
    stored under the id, so the import has no bytecode cached from an
    earlier text to take in its place and runs the text of the request.
    When that text executes and its [initialize], if it has one, returns,
    the [load] is answered with success, and an [execute] request under the
    same id then reaches that code: the answer holds what its plain
    function returns, or the text of what it raises. *)
Theorem first_load_then_execute
    (σ : State) (pid : string) (load execute : message)
    (m : gmap string pyfunc) (func : pyfunc)
    (b : list value → kwargs → outcome value) :
  disk σ !! pid = None →
  m_type load = "load" →
  exec_module (pythonCode load) = Ok m →
  (∀ initialize, m !! "initialize" = Some initialize →
     ∃ v, call initialize [] [] = Ok v) →
  m_type execute = "execute" →
  m !! function execute = Some func →
  f_body func = PlainFunction b →
  ∃ σ1,
    handle_plugin_message pid load σ =
      (Ok (Some (load_response (m_id load) true None)), σ1) ∧
    (handle_plugin_message pid execute σ1).1 =
      Ok (Some match b (args execute) (kwargs_ execute) with
               | Ok v => execute_response (m_id execute) v None
               | Exc e => execute_response (m_id execute) VNone (Some e)
               end).
Proof.
  intros _ Hl Hexec Hinit He Hf Hb.
  destruct (load_plugin_success σ pid (pythonCode load) (requirements load) m
              Hexec Hinit) as (σ1 & Hload & Hreg & Hheap).
  exists σ1. split.
  - unfold handle_plugin_message. rewrite Hl. rewrite decide_True by done.
    apply try_except_Ok. erewrite bind_Ok by exact Hload. done.
  - erewrite handle_execute_message;
      [|done|by eapply execute_plain_reply].
    by destruct (b (args execute) (kwargs_ execute)).
Qed.

(** ** More of the code, at the sample runs *)

Lemma equipped_state :
  plugins equipped !! "cam" = Some 0 ∧
  heap equipped !! 0 =
    Some {| plugin_id := "cam"; module := Some tools_module; streams := [] |} ∧
  connections equipped !! "cam" = Some 0.
Proof. vm_compute. done. Qed.

Lemma execute_plain_function_witness :
  handle_plugin_message "cam" add_2_3 equipped =
    (Ok (Some (execute_response (VInt 2) (VInt 5) None)),
     set_pool (pool equipped ++ [(0, "add")]) equipped).
Proof.
  apply (execute_plain_function equipped "cam" 0
           {| plugin_id := "cam"; module := Some tools_module; streams := [] |}
           tools_module add_2_3 add
           (λ args _, match args with
                      | [VInt a; VInt b] => Ok (VInt (a + b))
                      | _ => Exc "unsupported operand type(s) for +"
                      end));
    vm_compute; reflexivity.
Defined.

Lemma execute_coroutine_function_witness :
  handle_plugin_message "cam" (request "execute" tools "fetch" "") equipped =
    (Ok (Some (execute_response (VInt 1) (VStr "frame") None)), equipped).
Proof.
  apply (execute_coroutine_function equipped "cam" 0
           {| plugin_id := "cam"; module := Some tools_module; streams := [] |}
           tools_module (request "execute" tools "fetch" "") fetch
           (λ _ _, Ok {| co_delay := 2; co_result := Ok (VStr "frame") |}));
    vm_compute; reflexivity.
Defined.

Lemma execute_missing_function_witness :
  handle_plugin_message "cam" (request "execute" tools "zoom" "") equipped =
    (Ok (Some (execute_response (VInt 1) VNone
                 (Some ("Function " +:+ "zoom" +:+ " not found in plugin")))),
     equipped).
Proof.
  apply (execute_missing_function equipped "cam" 0
           (request "execute" tools "zoom" ""));
    vm_compute; reflexivity.
Defined.

Lemma unknown_message_type_is_ignored_witness :
  dispatch (receive 0 "cam" (request "ping" camera "" "")) loaded =
    (Ok (), loaded).
Proof.
  apply (unknown_message_type_is_ignored loaded 0 "cam"
           (request "ping" camera "" "")).
  compute_done.
Defined.

Lemma unencodable_result_drops_connection_witness :
  dispatch (receive 0 "cam" (request "execute" tools "raw" "")) equipped =
    (Ok (),
     set_connections (delete "cam" (connections equipped))
       (set_pool (pool equipped ++ [(0, "raw")]) equipped)).
Proof.
  apply (unencodable_result_drops_connection equipped 0 "cam" 0
           {| plugin_id := "cam"; module := Some tools_module; streams := [] |}
           tools_module (request "execute" tools "raw" "") raw
           (λ _ _, Ok (VGenerator GReturn)) (VGenerator GReturn)
           (VGenerator GReturn));
    vm_compute; reflexivity.
Defined.

Lemma unload_always_unregisters_witness :
  ∃ w σ',
    handle_plugin_message "cam" (request "unload" camera "" "") streaming =
      (Ok (Some w), σ') ∧
    (w = unload_response (VInt 1) true ∨ ∃ e, w = error_response (VInt 1) e) ∧
    plugins σ' = delete "cam" (plugins streaming) ∧
    "cam" ∉ PluginManager.get_loaded_plugins σ'.
Proof.
  apply (unload_always_unregisters streaming "cam"
           (request "unload" camera "" "")).
  reflexivity.
Defined.


Lemma unload_clears_streams_then_cleans_up_witness :
  let p := {| plugin_id := "cam"; module := Some camera_module;
              streams := [("s1", 0)] |} in
  let r := PluginManager.unload_plugin "cam" counting in
  r.1 = match camera_module !! "cleanup" with
        | Some cleanup =>
            match call cleanup [] [] with Ok _ => Ok () | Exc e => Exc e end
        | None => Ok ()
        end ∧
  plugins r.2 = delete "cam" (plugins counting) ∧
  heap r.2 = <[0 := set_streams [] p]> (heap counting) ∧
  tasks r.2 = tasks counting ∧
  pool r.2 = pool counting ++ match camera_module !! "cleanup" with
                              | Some cleanup => [(0, f_name cleanup)]
                              | None => []
                              end.
Proof.
  apply (unload_clears_streams_then_cleans_up counting "cam" 0
           {| plugin_id := "cam"; module := Some camera_module;
              streams := [("s1", 0)] |} camera_module);
    try (vm_compute; reflexivity).
  intros task Hin. apply list_elem_of_singleton in Hin. subst task.
  eexists. split; [vm_compute; reflexivity|]. by left.
Defined.



Lemma relay_does_not_start_without_connection_witness :
  step orphaned (resume 0) =
    set_handlers (<[0 := Completed]> (handlers orphaned)) orphaned.
Proof.
  apply (relay_does_not_start_without_connection orphaned 0 "cam" "s1"
           "count" [] []);
    vm_compute; reflexivity.
Defined.


Lemma async_generator_stream_in_order_witness :
  let data := request "stream_start" camera "ticker" "s1" in
  let g := AAwait 5 (AYield (VInt 1) (AAwait 5 (AYield (VInt 2) AReturn))) in
  let p := {| plugin_id := "cam"; module := Some camera_module;
              streams := [] |} in
  let h := fresh (dom (handlers loaded)) in
  let task := fresh (dom (tasks loaded)) in
  let n := 2 + length (async_yields g) in
  let σ' := run (receive 0 "cam" data :: replicate n (resume h)) loaded in
  sent σ' =
    sent loaded ++
      (0, stream_start_response (m_id data) (streamId data) true) ::
      ((λ v, (0, stream_data (streamId data) v)) <$> async_yields g) ∧
  handlers σ' !! h = Some Completed ∧
  heap σ' !! 0 =
    Some (set_streams
            (dict_remove (streamId data)
               (dict_set (streamId data) task (streams p))) p) ∧
  task_done (task_at σ' task) = true.
Proof.
  apply (async_generator_stream_in_order loaded 0 "cam" 0
           {| plugin_id := "cam"; module := Some camera_module;
              streams := [] |}
           camera_module (request "stream_start" camera "ticker" "s1") ticker
           (λ _ _, Ok (AAwait 5 (AYield (VInt 1) (AAwait 5 (AYield (VInt 2)
                         AReturn)))))
           (AAwait 5 (AYield (VInt 1) (AAwait 5 (AYield (VInt 2) AReturn)))));
    try (vm_compute; reflexivity).
  - simpl. unfold STREAM_TIMEOUT. repeat split; lia.
  - simpl. repeat constructor.
Defined.

Lemma generator_stream_in_order_witness :
  let data := request "stream_start" camera "boom" "s1" in
  let g := GYield (VInt 1) (GYield (VInt 2) (GRaise "boom")) in
  let p := {| plugin_id := "cam"; module := Some camera_module;
              streams := [] |} in
  let h := fresh (dom (handlers loaded)) in
  let task := fresh (dom (tasks loaded)) in
  let n := 2 + length (yields g) in
  let σ' := run (receive 0 "cam" data :: replicate n (resume h)) loaded in
  sent σ' =
    sent loaded ++
      (0, stream_start_response (m_id data) (streamId data) true) ::
      ((λ v, (0, stream_data (streamId data) v)) <$> yields g) ∧
  handlers σ' !! h = Some Completed ∧
  heap σ' !! 0 =
    Some (set_streams
            (dict_remove (streamId data)
               (dict_set (streamId data) task (streams p))) p) ∧
  task_done (task_at σ' task) = true.
Proof.
  apply (generator_stream_in_order loaded 0 "cam" 0
           {| plugin_id := "cam"; module := Some camera_module;
              streams := [] |}
           camera_module (request "stream_start" camera "boom" "s1") boom
           (λ _ _, Ok (GYield (VInt 1) (GYield (VInt 2) (GRaise "boom"))))
           (GYield (VInt 1) (GYield (VInt 2) (GRaise "boom"))));
    try (vm_compute; reflexivity).
  simpl. repeat constructor.
Defined.

Lemma list_result_is_streamed_by_element_witness :
  let data := request "stream_start" tools "names" "s1" in
  let h := fresh (dom (handlers equipped)) in
  let σ' := run (receive 0 "cam" data :: replicate 4 (resume h)) equipped in
  sent σ' =
    sent equipped ++
      (0, stream_start_response (VInt 1) "s1" true) ::
      [(0, stream_data "s1" (VStr "usb")); (0, stream_data "s1" (VStr "rtsp"))] ∧
  handlers σ' !! h = Some Completed.
Proof.
  apply (list_result_is_streamed_by_element equipped 0 "cam" 0
           {| plugin_id := "cam"; module := Some tools_module; streams := [] |}
           tools_module (request "stream_start" tools "names" "s1") names
           (λ _ _, Ok (VList [VStr "usb"; VStr "rtsp"]))
           [VStr "usb"; VStr "rtsp"]);
    try (vm_compute; reflexivity).
  repeat constructor.
Defined.

Lemma scalar_result_streams_nothing_witness :
  let data := request "stream_start" tools "version" "s1" in
  let h := fresh (dom (handlers equipped)) in
  let task := fresh (dom (tasks equipped)) in
  let p := {| plugin_id := "cam"; module := Some tools_module;
              streams := [] |} in
  let σ' := run [receive 0 "cam" data; resume h; resume h] equipped in
  sent σ' = sent equipped ++ [(0, stream_start_response (VInt 1) "s1" true)] ∧
  handlers σ' !! h = Some Completed ∧
  tasks σ' !! task =
    Some {| t_state := Failed ("Function " +:+ f_name version +:+
                               " did not return a generator");
            t_queue := [] |} ∧
  heap σ' !! 0 =
    Some (set_streams (dict_remove "s1" (dict_set "s1" task (streams p))) p).
Proof.
  apply (scalar_result_streams_nothing equipped 0 "cam" 0
           {| plugin_id := "cam"; module := Some tools_module; streams := [] |}
           tools_module (request "stream_start" tools "version" "s1") version
           (λ _ _, Ok (VInt 3)) (VInt 3));
    vm_compute; reflexivity.
Defined.

Lemma stream_stop_of_unknown_stream_is_acknowledged_witness :
  handle_plugin_message "cam" (request "stream_stop" camera "" "s9") streaming =
    (Ok (Some (stream_stop_response (VInt 1) "s9" true)), streaming).
Proof.
  apply (stream_stop_of_unknown_stream_is_acknowledged streaming "cam"
           (request "stream_stop" camera "" "s9")); [reflexivity|].
  right. exists 0. split; vm_compute; reflexivity.
Defined.

Lemma stream_stop_cancels_producer_witness :
  let k := CPut (VInt 1) (CAwait 5 (CPut (VInt 2) (CPut VNone CReturn))) in
  let p := {| plugin_id := "cam"; module := Some camera_module;
              streams := [("s1", 0)] |} in
  handle_plugin_message "cam" (request "stream_stop" camera "" "s1") streaming =
    (Ok (Some (stream_stop_response (VInt 1) "s1" true)),
     set_tasks
       (<[0 := {| t_state := Cancelled; t_queue := [] ++ [VNone] |}]>
          (tasks streaming))
       (set_heap (<[0 := set_streams (dict_remove "s1" (streams p)) p]>
                    (heap streaming)) streaming)).
Proof.
  apply (stream_stop_cancels_producer streaming "cam" 0
           {| plugin_id := "cam"; module := Some camera_module;
              streams := [("s1", 0)] |}
           (request "stream_stop" camera "" "s1") 0
           {| t_state := Suspended 5 (CPut (VInt 1) (CAwait 5
                           (CPut (VInt 2) (CPut VNone CReturn))));
              t_queue := [] |});
    vm_compute; reflexivity.
Defined.



Lemma first_load_then_execute_witness :
  ∃ σ1,
    handle_plugin_message "cam" (request "load" tools "" "") connected =
      (Ok (Some (load_response (VInt 1) true None)), σ1) ∧
    (handle_plugin_message "cam" add_2_3 σ1).1 =
      Ok (Some (execute_response (VInt 2) (VInt 5) None)).
Proof.
  apply (first_load_then_execute connected "cam" (request "load" tools "" "")
           add_2_3
           tools_module add (λ args _,
             match args with
             | [VInt a; VInt b] => Ok (VInt (a + b))
             | _ => Exc "unsupported operand type(s) for +"
             end));
    try (vm_compute; reflexivity).
  intros f. vm_compute. discriminate.
Defined.

Lemma disconnect_clears_settled_streams_witness :
  let p := {| plugin_id := "cam"; module := Some camera_module;
              streams := [("s1", 0)] |} in
  dispatch (disconnect "cam") counting =
    (Ok (),
     set_heap (<[0 := set_streams [] p]> (heap counting))
       (set_connections (delete "cam" (connections counting)) counting)).
Proof.
  apply (disconnect_clears_settled_streams counting "cam" 0
           {| plugin_id := "cam"; module := Some camera_module;
              streams := [("s1", 0)] |});
    try (vm_compute; reflexivity).
  intros task Hin. apply list_elem_of_singleton in Hin. subst task.
  eexists. split; [vm_compute; reflexivity|]. by left.
Defined.

Lemma non_object_message_drops_connection_witness :
  receive_any 0 "cam" (JArray [VStr "execute"]) streaming =
    (Ok (), set_connections (delete "cam" (connections streaming)) streaming).
Proof.
  apply (non_object_message_drops_connection streaming 0 "cam"
           (JArray [VStr "execute"])).
  intros data. discriminate.
Defined.
